(** * HaploMapper: basal haplogroup resolution and geotemporal aggregation

    A shallow embedding of [HaploMapper.py]: the label clean-up, the two
    resolver loops ([findYBasalHaplogroups], [findMTBasalHaplogroups]), the
    one-hot encoder ([createDummyVariables]), the binner ([create_bins]),
    the merge of the two tracks and the two aggregations ([createTable]).

    Conventions.  Python strings are modelled as [string] (sequences of
    8-bit characters), Python dicts as insertion-ordered association lists,
    pandas float columns as lists of [cell] where [None] is NaN.  The counts
    handled by the encoder and the aggregator are small integers stored as
    floats; they are modelled as [Z]. *)

From Stdlib Require Import List String Ascii ZArith Lia Bool Arith.
From Stdlib Require Import DecimalString Permutation.
Import ListNotations.

Local Open Scope string_scope.
Local Open Scope list_scope.
Local Open Scope nat_scope.

(* ================================================================= *)
(** ** Python string primitives *)

Module PyStr.

(** [s.split(sep)] for a one-character separator: never empty. *)
Fixpoint split (sep : ascii) (s : string) : list string :=
  match s with
  | EmptyString => [EmptyString]
  | String c r =>
      if Ascii.eqb c sep then EmptyString :: split sep r
      else match split sep r with
           | h :: t => String c h :: t
           | [] => [String c EmptyString]
           end
  end.

(** [s.split(sep)[0]] *)
Definition first_field (sep : ascii) (s : string) : string :=
  hd EmptyString (split sep s).

(** [s.replace(old, "")] for a one-character [old]. *)
Fixpoint remove_char (old : ascii) (s : string) : string :=
  match s with
  | EmptyString => EmptyString
  | String c r =>
      if Ascii.eqb c old then remove_char old r
      else String c (remove_char old r)
  end.

(** [s.startswith(p)] *)
Fixpoint startswith (s p : string) {struct p} : bool :=
  match p with
  | EmptyString => true
  | String c p' =>
      match s with
      | EmptyString => false
      | String d s' => Ascii.eqb d c && startswith s' p'
      end
  end.

(** [s.endswith(p)] *)
Definition endswith (s p : string) : bool :=
  let n := String.length s in
  let m := String.length p in
  (m <=? n) && String.eqb (String.substring (n - m) m s) p.

(** [p in s] *)
Fixpoint contains (p s : string) : bool :=
  startswith s p ||
  match s with
  | EmptyString => false
  | String _ r => contains p r
  end.

(** [c.isalpha()], on the ASCII range. *)
Definition isalpha (c : ascii) : bool :=
  let n := nat_of_ascii c in
  ((65 <=? n) && (n <=? 90)) || ((97 <=? n) && (n <=? 122)).

(** [c.isspace()], on the ASCII range. *)
Definition isspace (c : ascii) : bool :=
  let n := nat_of_ascii c in
  ((9 <=? n) && (n <=? 13)) || ((28 <=? n) && (n <=? 32)).

Fixpoint forallb_string (p : ascii -> bool) (s : string) : bool :=
  match s with
  | EmptyString => true
  | String c r => p c && forallb_string p r
  end.

Fixpoint mem_char (c : ascii) (s : string) : bool :=
  match s with
  | EmptyString => false
  | String d r => Ascii.eqb d c || mem_char c r
  end.

End PyStr.

(* ================================================================= *)
(** ** LabelNormalizer: the clean-up comprehension of both resolvers *)

(** [haplo.split(";")[0].split("-")[0].split("(")[0]
         .replace('~', "").replace('*', "")] *)
Definition clean (haplo : string) : string :=
  PyStr.remove_char "*"
    (PyStr.remove_char "~"
       (PyStr.first_field "("
          (PyStr.first_field "-"
             (PyStr.first_field ";" haplo)))).

(** The same operation as the specification words it: the part of [s]
    before the first occurrence of [c] (all of [s] when there is none). *)
Fixpoint truncate_at (c : ascii) (s : string) : string :=
  match s with
  | EmptyString => EmptyString
  | String d r => if Ascii.eqb d c then EmptyString else String d (truncate_at c r)
  end.

(** Every literal '~' and '*' removed. *)
Fixpoint strip_markers (s : string) : string :=
  match s with
  | EmptyString => EmptyString
  | String d r =>
      if Ascii.eqb d "~" || Ascii.eqb d "*" then strip_markers r
      else String d (strip_markers r)
  end.

Definition normalize_spec (s : string) : string :=
  strip_markers (truncate_at "(" (truncate_at "-" (truncate_at ";" s))).

Definition whitespace_only (s : string) : bool :=
  negb (String.eqb s "") && PyStr.forallb_string PyStr.isspace s.

(* ================================================================= *)
(** ** Alias tables: Python dicts in insertion order *)

Definition pydict := list (string * string).

(** [d.get(k)] on a string-keyed mapping in insertion order (a dict, or
    the columns of a data frame). *)
Fixpoint dict_get {V : Type} (d : list (string * V)) (k : string) : option V :=
  match d with
  | [] => None
  | (k', v) :: r => if String.eqb k' k then Some v else dict_get r k
  end.

(** [k in d] *)
Definition dict_in {V : Type} (d : list (string * V)) (k : string) : bool :=
  match dict_get d k with
  | Some _ => true
  | None => false
  end.

(** [d[k]] where [k in d] has been tested. *)
Definition dict_at (d : pydict) (k : string) : string :=
  match dict_get d k with
  | Some v => v
  | None => EmptyString
  end.

(** [d[k] = v]: overwrite in place, or append a new entry. *)
Fixpoint dict_set {V : Type} (d : list (string * V)) (k : string) (v : V)
  : list (string * V) :=
  match d with
  | [] => [(k, v)]
  | (k', v') :: r =>
      if String.eqb k' k then (k', v) :: r else (k', v') :: dict_set r k v
  end.

(** [{v: k for k, v in d.items()}] *)
Definition dict_inv (d : pydict) : pydict :=
  fold_left (fun acc kv => dict_set acc (snd kv) (fst kv)) d [].

(** The key of the last entry of [d] whose value is [v]. *)
Definition last_key_for (d : pydict) (v : string) : option string :=
  option_map fst (find (fun kv => String.eqb (snd kv) v) (rev d)).

(* ================================================================= *)
(** ** IterativeResolver *)

(** The value assigned by the last branch of a round, and the literal the
    loop condition compares with. *)
Definition na : string := "n/a".
Definition na_female : string := "n/a(Female)".

(** [v in ['#', "Root"]] *)
Definition no_parent (v : string) : bool :=
  String.eqb v "#" || String.eqb v "Root".

(** [lst[i] = v] on an index in range. *)
Fixpoint list_set (i : nat) (v : string) (l : list string) : list string :=
  match l, i with
  | [], _ => []
  | _ :: t, 0 => v :: t
  | h :: t, S i' => h :: list_set i' v t
  end.

(** The loop condition's first conjunct:
    [any(len(item) > 1 and item != 'n/a(Female)' for item in data)] *)
Definition pending (data : list string) : bool :=
  existsb (fun item => (1 <? String.length item) && negb (String.eqb item na_female)) data.

Definition MAX_LOOPS : nat := 50.

Section YTrack.

Variables y_basal_dict y_snp_dict y_locus_dict : pydict.

Let y_snp_dict_inv : pydict := dict_inv y_snp_dict.

(** Body of [for index, haplo in enumerate(y_haplo_data)]: the value
    assigned to [y_haplo_data[index]], or [None] when the guard
    [len(haplo) > 1] fails and nothing is assigned. *)
Definition y_assign (haplo : string) : option string :=
  if 1 <? String.length haplo then
    if dict_in y_basal_dict haplo
       && negb (no_parent (dict_at y_basal_dict haplo))
    then Some (dict_at y_basal_dict haplo)
    else if dict_in y_snp_dict_inv haplo
    then Some (dict_at y_snp_dict_inv haplo)
    else if dict_in y_locus_dict haplo
    then Some (dict_at y_locus_dict haplo)
    else Some na
  else None.

(** The [for] loop from [index], [n] iterations left, mutating the list. *)
Fixpoint y_for (n index : nat) (data : list string) : list string :=
  match n with
  | 0 => data
  | S n' =>
      match nth_error data index with
      | None => data
      | Some haplo =>
          let data' := match y_assign haplo with
                       | Some v => list_set index v data
                       | None => data
                       end in
          y_for n' (S index) data'
      end
  end.

(** State of the [while] loop: the counter, the working list and the
    data-frame column it is written back to. *)
Record ystate := mk_ystate {
  y_loop : nat;
  y_haplo_data : list string;
  y_column : list string
}.

(** One round: [loop += 1], the [for] loop, then
    [y_df[...] = y_haplo_data]. *)
Definition y_body (st : ystate) : ystate :=
  let data := y_for (List.length (y_haplo_data st)) 0 (y_haplo_data st) in
  mk_ystate (S (y_loop st)) data data.

Definition y_cond (st : ystate) : bool :=
  pending (y_haplo_data st) && (y_loop st <? MAX_LOOPS).

Fixpoint y_while (fuel : nat) (st : ystate) : ystate :=
  match fuel with
  | 0 => st
  | S fuel' => if y_cond st then y_while fuel' (y_body st) else st
  end.

(** [findYBasalHaplogroups]: [raw] is the column
    'Y haplogroup (manual curation in ISOGG format)' on entry; the result
    carries the same column on exit in [y_column]. *)
Definition findYBasalHaplogroups (raw : list string) : ystate :=
  y_while MAX_LOOPS (mk_ystate 0 (map clean raw) raw).

End YTrack.

Section MTTrack.

Variables mt_basal_dict mutant_dict : pydict.

Let mutant_dict_inv : pydict := dict_inv mutant_dict.

(** The body of the mitochondrial [for] loop: the same chain without a
    locus table. *)
Definition mt_assign (haplo : string) : option string :=
  if 1 <? String.length haplo then
    if dict_in mt_basal_dict haplo
       && negb (no_parent (dict_at mt_basal_dict haplo))
    then Some (dict_at mt_basal_dict haplo)
    else if dict_in mutant_dict_inv haplo
    then Some (dict_at mutant_dict_inv haplo)
    else Some na
  else None.

Fixpoint mt_for (n index : nat) (data : list string) : list string :=
  match n with
  | 0 => data
  | S n' =>
      match nth_error data index with
      | None => data
      | Some haplo =>
          let data' := match mt_assign haplo with
                       | Some v => list_set index v data
                       | None => data
                       end in
          mt_for n' (S index) data'
      end
  end.

Record mtstate := mk_mtstate {
  mt_loop : nat;
  mt_haplo_data : list string
}.

Definition mt_body (st : mtstate) : mtstate :=
  mk_mtstate (S (mt_loop st))
             (mt_for (List.length (mt_haplo_data st)) 0 (mt_haplo_data st)).

Definition mt_cond (st : mtstate) : bool :=
  pending (mt_haplo_data st) && (mt_loop st <? MAX_LOOPS).

Fixpoint mt_while (fuel : nat) (st : mtstate) : mtstate :=
  match fuel with
  | 0 => st
  | S fuel' => if mt_cond st then mt_while fuel' (mt_body st) else st
  end.

(** The two columns of [mt_df] that [findMTBasalHaplogroups] leaves:
    'mtDNA haplogroup if >2x or published', which it only reads, and the
    new 'Updated mtDNA haplogroup'. *)
Record mt_columns := mk_mt_columns {
  mt_rounds : nat;
  mt_published : list string;
  mt_updated : list string
}.

Definition findMTBasalHaplogroups (raw : list string) : mt_columns :=
  let st := mt_while MAX_LOOPS (mk_mtstate 0 (map clean raw)) in
  mk_mt_columns (mt_loop st) raw (mt_haplo_data st).

End MTTrack.

(* ================================================================= *)
(** ** The resolver as the specification words it *)

(** The priority chain of one round for a key, over the three tables. *)
Inductive rule (hier xref second : pydict) (key : string) : string -> Prop :=
| rule_hierarchy : forall v,
    dict_get hier key = Some v -> no_parent v = false ->
    rule hier xref second key v
| rule_reverse : forall k,
    (forall v, dict_get hier key = Some v -> no_parent v = true) ->
    last_key_for xref key = Some k ->
    rule hier xref second key k
| rule_secondary : forall v,
    (forall v, dict_get hier key = Some v -> no_parent v = true) ->
    last_key_for xref key = None ->
    dict_get second key = Some v ->
    rule hier xref second key v
| rule_sentinel :
    (forall v, dict_get hier key = Some v -> no_parent v = true) ->
    last_key_for xref key = None ->
    dict_get second key = None ->
    rule hier xref second key na.

(** A round that leaves alone the keys of length at most one and the
    keys equal to [sentinel]. *)
Inductive spec_round_key (sentinel : string) (hier xref second : pydict)
  (key : string) : string -> Prop :=
| spec_skip :
    String.length key <= 1 \/ key = sentinel ->
    spec_round_key sentinel hier xref second key key
| spec_apply : forall new,
    1 < String.length key -> key <> sentinel ->
    rule hier xref second key new ->
    spec_round_key sentinel hier xref second key new.

(** Every key has length at most one or equals [sentinel]. *)
Definition converged (sentinel : string) (data : list string) : Prop :=
  Forall (fun key => String.length key <= 1 \/ key = sentinel) data.

(** [n] rounds of the Y track on a working list. *)
Definition y_rounds (basal snp locus : pydict) (n : nat) (data : list string)
  : list string :=
  Nat.iter n (fun d => y_for basal snp locus (List.length d) 0 d) data.

(* ================================================================= *)
(** ** Raised exceptions *)

(** A Python exception aborts the computation: [None]. *)
Definition bind {A B : Type} (x : option A) (f : A -> option B) : option B :=
  match x with
  | Some a => f a
  | None => None
  end.

Notation "x <- e ;; k" := (bind e (fun x => k))
  (at level 61, e at next level, right associativity).

(* ================================================================= *)
(** ** Generic list helpers: distinct values and sorting *)

(** The distinct elements of [l], first occurrences kept. *)
Fixpoint distinct {A : Type} (eqb : A -> A -> bool) (l : list A) : list A :=
  match l with
  | [] => []
  | x :: r => x :: filter (fun y => negb (eqb x y)) (distinct eqb r)
  end.

Fixpoint insert_sorted {A : Type} (leb : A -> A -> bool) (x : A) (l : list A)
  : list A :=
  match l with
  | [] => [x]
  | y :: r => if leb x y then x :: l else y :: insert_sorted leb x r
  end.

Fixpoint isort {A : Type} (leb : A -> A -> bool) (l : list A) : list A :=
  match l with
  | [] => []
  | x :: r => insert_sorted leb x (isort leb r)
  end.

(* ================================================================= *)
(** ** BasalEncoder: [createDummyVariables] *)

(** An integer (later float) column, and a frame of named columns. *)
Definition column := list Z.
Definition dummies := list (string * column).

(** [pd.get_dummies(keys)]: one 0/1 column per distinct value, the
    values in sorted order. *)
Definition get_dummies (keys : list string) : dummies :=
  map (fun v => (v, map (fun x => if String.eqb x v then 1%Z else 0%Z) keys))
      (isort String.leb (distinct String.eqb keys)).

(** [not col.startswith('n') and col[0].isalpha()]; [col[0]] raises
    IndexError on the empty string. *)
Definition keep (col : string) : option bool :=
  if PyStr.startswith col "n" then Some false
  else match col with
       | EmptyString => None
       | String c _ => Some (PyStr.isalpha c)
       end.

(** [[col for col in cols if keep(col)]] *)
Fixpoint cols_to_keep (cols : list string) : option (list string) :=
  match cols with
  | [] => Some []
  | col :: rest =>
      b <- keep col ;;
      kept <- cols_to_keep rest ;;
      Some (if b then col :: kept else kept)
  end.

(** [d[names]] *)
Definition select (d : dummies) (names : list string) : dummies :=
  map (fun nm => (nm, match dict_get d nm with Some c => c | None => [] end))
      names.

(** [col[0] for col in names] *)
Definition first_chars (names : list string) : list ascii :=
  flat_map (fun nm => match nm with
                      | String c _ => [c]
                      | EmptyString => []
                      end) names.

(** [set(col[0] for col in d.columns)], iterated in first-occurrence
    order.  Python leaves the order of a set unspecified: the loop below
    takes the order as an argument. *)
Definition unique_starting_letters (d : dummies) : list ascii :=
  distinct Ascii.eqb (first_chars (map fst d)).

(** [d[cols].sum(axis=1)] over [n] rows. *)
Definition sum_axis1 (n : nat) (cols : list column) : column :=
  map (fun i => fold_right Z.add 0%Z (map (fun c => nth i c 0%Z) cols))
      (seq 0 n).

(** One iteration of [for letter in unique_starting_letters]. *)
Definition add_letter_sum (suffix : string) (n : nat) (d : dummies)
  (letter : ascii) : dummies :=
  let cols_to_sum :=
    filter (fun nc => PyStr.startswith (fst nc) (String letter EmptyString)) d in
  dict_set d (String letter suffix) (sum_axis1 n (map snd cols_to_sum)).

Definition letter_sums (suffix : string) (n : nat) (letters : list ascii)
  (d : dummies) : dummies :=
  fold_left (add_letter_sum suffix n) letters d.

(** [d.filter(like='_sum')] then [summed[total] = summed.sum(axis=1)]. *)
Definition summed (total : string) (n : nat) (d : dummies) : dummies :=
  let s := filter (fun nc => PyStr.contains "_sum" (fst nc)) d in
  dict_set s total (sum_axis1 n (map snd s)).

(** One track of the encoder after the retained names are known. *)
Definition encode_kept (suffix total : string) (keys kept : list string)
  : dummies :=
  let n := List.length keys in
  let d := select (get_dummies keys) kept in
  summed total n (letter_sums suffix n (unique_starting_letters d) d).

(** [createDummyVariables]: [y_col] is the column
    'Y haplogroup (manual curation in ISOGG format)' of [y_df], [mt_col] the
    column 'mtDNA haplogroup if >2x or published' of [mt_df]; the result is
    [(y_dummies_summed, mt_dummies_summed)]. *)
Definition createDummyVariables (y_col mt_col : list string)
  : option (dummies * dummies) :=
  let y_dummies := get_dummies y_col in
  let mt_dummies := get_dummies mt_col in
  y_cols_to_keep <- cols_to_keep (map fst y_dummies) ;;
  mt_cols_to_keep <- cols_to_keep (map fst mt_dummies) ;;
  Some (encode_kept "_y_sum" "y_haplos_sum" y_col y_cols_to_keep,
        encode_kept "_mt_sum" "mt_haplos_sum" mt_col mt_cols_to_keep).

(* ================================================================= *)
(** ** Binner: [create_bins] *)

(** One record of the annotation table as [open_data] returns it.
    Coordinates and ages are numeric columns in which NaN ([None]) can
    occur: [open_data] drops the rows whose coordinate is missing before it
    coerces the coordinates to numbers.  Coordinates are only compared;
    they are modelled as integers (fixed-point degrees). *)
Record sample := mk_sample {
  master_id : string;
  lat : option Z;
  long : option Z;
  date_mean : option Z;
  political_entity : option string;
  y_haplogroup : string;
  mt_haplogroup : string
}.

Definition Z_to_string (z : Z) : string := NilZero.string_of_int (Z.to_int z).

(** [range(start, stop, step)] for a positive [step]. *)
Definition py_range (start stop step : Z) : list Z :=
  map (fun k => (start + Z.of_nat k * step)%Z)
      (seq 0 (Z.to_nat ((stop - start + step - 1) / step))).

Definition bin_start : Z := 0.
Definition bin_end : Z := 120000.

(** [pd.cut(x, bins, labels, right=False)] for one value. *)
Fixpoint cut_value (x : Z) (bins : list Z) (labels : list string)
  : option string :=
  match bins, labels with
  | lo :: ((hi :: _) as rest), lab :: labs =>
      if ((lo <=? x) && (x <? hi))%Z then Some lab
      else cut_value x rest labs
  | _, _ => None
  end.

Definition cut (x : option Z) (bins : list Z) (labels : list string)
  : option string :=
  match x with
  | Some v => cut_value v bins labels
  | None => None
  end.

(** [series.astype('str')] on one element of the categorical column: a
    missing value becomes the text "nan". *)
Definition astype_str (c : option string) : string :=
  match c with
  | Some s => s
  | None => "nan"
  end.

(** A record with its two new columns. *)
Record binned := mk_binned {
  b_sample : sample;
  DateBins : option string;
  CombinedBins : option string
}.

(** Every cell of 'Political Entity' is missing, in a frame that has
    rows: the column then has dtype float64 (a column in which some cell
    holds text, and the column of a frame without rows, has dtype
    object). *)
Definition entity_all_missing (df : list sample) : bool :=
  match df with
  | [] => false
  | _ :: _ => forallb (fun r => match political_entity r with
                                | None => true
                                | Some _ => false
                                end) df
  end.

(** [create_bins]; a bin size that is not positive makes [range] or
    [pd.cut] raise, and adding the text " (" to a float column raises
    (UFuncTypeError). *)
Definition create_bins (bin_choice : Z) (df : list sample)
  : option (list binned) :=
  if (bin_choice <=? 0)%Z then None
  else if entity_all_missing df then None
  else
    let bin_size := bin_choice in
    let bins := py_range bin_start (bin_end + bin_size) bin_size in
    let labels :=
      map (fun i => Z_to_string i ++ "-" ++ Z_to_string (i + bin_size - 1))%string
          (py_range bin_start bin_end bin_size) in
    Some (map (fun r =>
                 let date_bins := cut (date_mean r) bins labels in
                 mk_binned r date_bins
                   (option_map
                      (fun e => (e ++ " (" ++ astype_str date_bins ++ "BP)")%string)
                      (political_entity r)))
              df).

(* ================================================================= *)
(** ** Merger: [pd.merge(y_df, mt_df, on=[...], how='outer')] *)

(** A float cell; [None] is NaN. *)
Definition cell := option Z.

(** A row of a frame: the four join columns and the numeric columns the
    encoder appended, by name. *)
Record row := mk_row {
  r_id : string;
  r_bins : option string;
  r_lat : option Z;
  r_long : option Z;
  r_vals : list (string * cell)
}.

Record frame := mk_frame {
  f_cols : list string;
  f_rows : list row
}.

(** [pd.concat([df, summed], axis=1)], kept to the join columns and the
    appended ones. *)
Definition concat_axis1 (df : list binned) (d : dummies) : frame :=
  mk_frame (map fst d)
    (map (fun ir =>
            let i := fst ir in
            let b := snd ir in
            mk_row (master_id (b_sample b)) (CombinedBins b)
                   (lat (b_sample b)) (long (b_sample b))
                   (map (fun nc => (fst nc, Some (nth i (snd nc) 0%Z))) d))
         (combine (seq 0 (List.length df)) df)).

Definition option_eqb {A : Type} (eqb : A -> A -> bool) (x y : option A) : bool :=
  match x, y with
  | Some a, Some b => eqb a b
  | None, None => true
  | _, _ => false
  end.

(** Equality of the join key ['Master ID', 'CombinedBins', 'Lat.', 'Long.'];
    a missing value matches a missing value. *)
Definition key_eqb (a b : row) : bool :=
  String.eqb (r_id a) (r_id b)
  && option_eqb String.eqb (r_bins a) (r_bins b)
  && option_eqb Z.eqb (r_lat a) (r_lat b)
  && option_eqb Z.eqb (r_long a) (r_long b).

(** A column name that both sides carry gets the side's suffix. *)
Definition suffixed (other : list string) (suffix nm : string) : string :=
  if existsb (String.eqb nm) other then (nm ++ suffix)%string else nm.

Definition rename (other : list string) (suffix : string)
  (vals : list (string * cell)) : list (string * cell) :=
  map (fun nc => (suffixed other suffix (fst nc), snd nc)) vals.

Definition missing (names : list string) : list (string * cell) :=
  map (fun nm => (nm, None)) names.

(** The outer join: every pair of rows with equal keys, then the rows of
    either side without a partner.  (pandas orders the result by key;
    no aggregation below depends on the order of the rows.) *)
Definition merge_outer (left right : frame) : frame :=
  let lcols := map (suffixed (f_cols right) "_x") (f_cols left) in
  let rcols := map (suffixed (f_cols left) "_y") (f_cols right) in
  let lvals l := rename (f_cols right) "_x" (r_vals l) in
  let rvals r := rename (f_cols left) "_y" (r_vals r) in
  let paired :=
    flat_map (fun l =>
                match filter (key_eqb l) (f_rows right) with
                | [] => [mk_row (r_id l) (r_bins l) (r_lat l) (r_long l)
                                (lvals l ++ missing rcols)]
                | partners =>
                    map (fun r => mk_row (r_id l) (r_bins l) (r_lat l) (r_long l)
                                         (lvals l ++ rvals r)) partners
                end) (f_rows left) in
  let right_only :=
    flat_map (fun r =>
                if existsb (fun l => key_eqb l r) (f_rows left) then []
                else [mk_row (r_id r) (r_bins r) (r_lat r) (r_long r)
                             (missing lcols ++ rvals r)]) (f_rows right) in
  mk_frame (lcols ++ rcols) (paired ++ right_only).

(* ================================================================= *)
(** ** Aggregator: [createTable] *)

(** [series.sum()] on a float column: NaN is skipped. *)
Definition nansum (l : list cell) : Z :=
  fold_right (fun c acc => match c with
                           | Some z => (z + acc)%Z
                           | None => acc
                           end) 0%Z l.

(** [series.dropna().iloc[0] if not series.dropna().empty else None] *)
Fixpoint first_valid {A : Type} (l : list (option A)) : option A :=
  match l with
  | [] => None
  | Some a :: _ => Some a
  | None :: r => first_valid r
  end.

Definition get_cell (r : row) (nm : string) : cell :=
  match dict_get (r_vals r) nm with
  | Some c => c
  | None => None
  end.

(** The group key of ['Lat.', 'Long.', 'CombinedBins']; a row with a
    missing key component belongs to no group. *)
Definition site_key (r : row) : option (Z * Z * string) :=
  match r_lat r, r_long r, r_bins r with
  | Some a, Some o, Some b => Some (a, o, b)
  | _, _, _ => None
  end.

Definition site_key_eqb (k1 k2 : Z * Z * string) : bool :=
  let '(a1, o1, b1) := k1 in
  let '(a2, o2, b2) := k2 in
  Z.eqb a1 a2 && Z.eqb o1 o2 && String.eqb b1 b2.

Definition site_key_leb (k1 k2 : Z * Z * string) : bool :=
  let '(a1, o1, b1) := k1 in
  let '(a2, o2, b2) := k2 in
  (a1 <? a2)%Z
  || (Z.eqb a1 a2 && ((o1 <? o2)%Z || (Z.eqb o1 o2 && String.leb b1 b2))).

Definition in_site (k : Z * Z * string) (r : row) : bool :=
  match site_key r with
  | Some k' => site_key_eqb k k'
  | None => false
  end.

Definition in_bin (b : string) (r : row) : bool :=
  match r_bins r with
  | Some b' => String.eqb b b'
  | None => false
  end.

Record site_row := mk_site_row {
  s_lat : Z;
  s_long : Z;
  s_bins : string;
  s_id : option string;
  s_vals : list (string * Z)
}.

Record bin_row := mk_bin_row {
  n_bins : string;
  n_vals : list (string * cell)
}.

(** The element of an object column handed to [pd.to_numeric]: a number,
    text that is not a number, or a missing value. *)
Inductive value :=
| Num (z : Z)
| Residue (s : string)
| Missing.

(** [pd.to_numeric(v, errors='coerce')] on one element. *)
Definition to_numeric_coerce (v : value) : cell :=
  match v with
  | Num z => Some z
  | Residue _ => None
  | Missing => None
  end.

(** [custom_aggregate] on a float column and on an object column. *)
Definition custom_aggregate_numeric (series : list cell) : Z := nansum series.
Definition custom_aggregate_object (series : list (option string))
  : option string := first_valid series.

(** The group keys of [groupby(['Lat.', 'Long.', 'CombinedBins'])]: the
    distinct keys observed, sorted; rows with a missing key component are
    dropped. *)
Definition site_keys (combined_df : frame) : list (Z * Z * string) :=
  isort site_key_leb
    (distinct site_key_eqb
       (flat_map (fun r => match site_key r with
                           | Some k => [k]
                           | None => []
                           end) (f_rows combined_df))).

(** The group keys of [groupby(['CombinedBins'])]. *)
Definition bin_keys (combined_df : frame) : list string :=
  isort String.leb
    (distinct String.eqb
       (flat_map (fun r => match r_bins r with
                           | Some b => [b]
                           | None => []
                           end) (f_rows combined_df))).

(** The rows of the site-level table: one per group key, with
    [custom_aggregate] applied to each column of the group. *)
Definition site_groups (combined_df : frame) : list site_row :=
  map (fun k =>
         let group := filter (in_site k) (f_rows combined_df) in
         let '(a, o, b) := k in
         mk_site_row a o b
           (custom_aggregate_object (map (fun r => Some (r_id r)) group))
           (map (fun nm =>
                   (nm, custom_aggregate_numeric (map (fun r => get_cell r nm) group)))
                (f_cols combined_df)))
      (site_keys combined_df).

(** [combined_df.groupby(['Lat.', 'Long.', 'CombinedBins'])
      .agg(custom_aggregate).reset_index()]: when no row has a complete
    group key the grouping has no group, and [reset_index] raises
    ValueError on the empty result. *)
Definition site_level (combined_df : frame) : option (list site_row) :=
  match site_keys combined_df with
  | [] => None
  | _ :: _ => Some (site_groups combined_df)
  end.

(** The keys of [agg_dict]. *)
Definition agg_columns (combined_df : frame) : list string :=
  filter (fun col => PyStr.endswith col "_sum"
                     || PyStr.endswith col "y_haplos_sum"
                     || PyStr.endswith col "mt_haplos_sum")
         (f_cols combined_df).

(** [combined_df.groupby(['CombinedBins'], as_index=False, observed=True)
      .agg(agg_dict)] *)
Definition bin_level (combined_df : frame) : list (string * list (string * Z)) :=
  map (fun b =>
         let group := filter (in_bin b) (f_rows combined_df) in
         (b, map (fun nm => (nm, nansum (map (fun r => get_cell r nm) group)))
                 (agg_columns combined_df)))
      (bin_keys combined_df).

(** [df[nm] = pd.to_numeric(df[nm], errors='coerce')]; KeyError when the
    column does not exist. *)
Definition coerce_column (nm : string) (cols : list string)
  (rows : list (string * list (string * cell)))
  : option (list (string * list (string * cell))) :=
  if existsb (String.eqb nm) cols then
    Some (map (fun br =>
                 (fst br,
                  map (fun nc =>
                         if String.eqb (fst nc) nm then
                           (fst nc, match snd nc with
                                    | Some z => to_numeric_coerce (Num z)
                                    | None => to_numeric_coerce Missing
                                    end)
                         else nc) (snd br)))
              rows)
  else None.

(** [createTable]: the bin-level table and the site-level table. *)
Definition createTable (combined_df : frame)
  : option (list bin_row * list site_row) :=
  combined_df_inds <- site_level combined_df ;;
  let cols := agg_columns combined_df in
  let nations :=
    map (fun br => (fst br, map (fun nc => (fst nc, Some (snd nc))) (snd br)))
        (bin_level combined_df) in
  nations <- coerce_column "y_haplos_sum" cols nations ;;
  nations <- coerce_column "mt_haplos_sum" cols nations ;;
  Some (map (fun br => mk_bin_row (fst br) (snd br)) nations, combined_df_inds).

(* ================================================================= *)
(** ** The engine: the calls at the end of the script *)

Section Engine.

Variables mt_basal_dict mutant_dict : pydict.
Variables y_basal_dict y_snp_dict y_locus_dict : pydict.
Variable bin_choice : Z.

(** The table that is merged and handed to [createTable]. *)
Definition combined (df : list sample) : option frame :=
  binned_df <- create_bins bin_choice df ;;
  let y := findYBasalHaplogroups y_basal_dict y_snp_dict y_locus_dict
             (map y_haplogroup df) in
  let mt := findMTBasalHaplogroups mt_basal_dict mutant_dict
              (map mt_haplogroup df) in
  sums <- createDummyVariables (y_column y) (mt_published mt) ;;
  Some (merge_outer (concat_axis1 binned_df (fst sums))
                    (concat_axis1 binned_df (snd sums))).

Definition engine (df : list sample) : option (list bin_row * list site_row) :=
  combined_df <- combined df ;;
  createTable combined_df.

End Engine.

(* ================================================================= *)
(** ** What one round does to one key *)

(** The key a round leaves at a position that held [key]. *)
Definition y_step (basal snp locus : pydict) (key : string) : string :=
  match y_assign basal snp locus key with
  | Some v => v
  | None => key
  end.

Definition mt_step (basal mutant : pydict) (key : string) : string :=
  match mt_assign basal mutant key with
  | Some v => v
  | None => key
  end.

(* ================================================================= *)
(** ** Vocabulary for the encoder's columns *)

(** The 0/1 column of the value [v] over the key column [keys]. *)
Definition indicator (v : string) (keys : list string) : column :=
  map (fun x => if String.eqb x v then 1%Z else 0%Z) keys.

(** The test of [cols_to_keep] where it does not raise: the name does not
    start with 'n' and its first character is alphabetic. *)
Definition retained (col : string) : bool :=
  match keep col with
  | Some b => b
  | None => false
  end.

(** The column [nm] of a frame; empty when there is no such column. *)
Definition column_of (d : dummies) (nm : string) : column :=
  match dict_get d nm with
  | Some c => c
  | None => []
  end.

(** The sum of the indicator columns of the retained keys that start
    with [letter]: the column the encoder is to store under
    [letter ++ suffix]. *)
Definition letter_column (keys kept : list string) (letter : ascii) : column :=
  sum_axis1 (List.length keys)
    (map (fun nm => indicator nm keys)
         (filter (fun nm => PyStr.startswith nm (String letter EmptyString)) kept)).

(** The per-letter sum columns in the order of the letters. *)
Definition letter_columns (suffix : string) (keys kept : list string)
  : dummies :=
  map (fun letter => (String letter suffix, letter_column keys kept letter))
      (distinct Ascii.eqb (first_chars kept)).

(** No name of the list contains the text "_sum". *)
Definition sum_free (names : list string) : Prop :=
  forall nm, In nm names -> PyStr.contains "_sum" nm = false.

(* ================================================================= *)
(** ** Vocabulary for the two aggregation levels *)

(** The value of column [nm] in a site-level row and in a bin-level row. *)
Definition site_value (s : site_row) (nm : string) : Z :=
  match dict_get (s_vals s) nm with
  | Some z => z
  | None => 0%Z
  end.

Definition bin_value (b : bin_row) (nm : string) : cell :=
  match dict_get (n_vals b) nm with
  | Some c => c
  | None => None
  end.

(** The sum of column [nm] over the site-level rows of bin [b]. *)
Definition site_total (sites : list site_row) (b nm : string) : Z :=
  fold_right Z.add 0%Z
    (map (fun s => site_value s nm)
         (filter (fun s => String.eqb b (s_bins s)) sites)).

(** The sum of column [nm] over a list of record rows, NaN skipped. *)
Definition column_sum (nm : string) (rows : list row) : Z :=
  nansum (map (fun r => get_cell r nm) rows).

(** A record of bin [b] without a latitude or a longitude. *)
Definition unlocated (b : string) (r : row) : bool :=
  in_bin b r && match site_key r with
                | Some _ => false
                | None => true
                end.

(** A cell as a number, NaN counting for nothing. *)
Definition nz (c : cell) : Z :=
  match c with
  | Some z => z
  | None => 0%Z
  end.

(** The record's key is among [ks]. *)
Definition key_among (ks : list (Z * Z * string)) (r : row) : bool :=
  match site_key r with
  | Some k => existsb (site_key_eqb k) ks
  | None => false
  end.

(** Every row of the frame carries exactly the frame's columns. *)
Definition well_formed (f : frame) : Prop :=
  forall r, In r (f_rows f) -> map fst (r_vals r) = f_cols f.

(** In a row, the total [total] is the sum of the columns [parts], NaN
    counting for nothing. *)
Definition row_total_is_sum (total : string) (parts : list string) (r : row)
  : Prop :=
  nz (get_cell r total)
  = fold_right Z.add 0%Z (map (fun nm => nz (get_cell r nm)) parts).

(** The names of the per-letter sum columns of a track, for the key
    column the encoder is given. *)
Definition letter_names (suffix : string) (keys : list string) : list string :=
  map (fun letter => String letter suffix)
      (distinct Ascii.eqb
         (first_chars (filter retained (map fst (get_dummies keys))))).

(* ================================================================= *)
(** ** [createTable] on a frame whose columns can hold text *)

(** [createTable] above is the aggregator on the frames that the encoder
    and the merge produce, whose appended columns are all numeric.  The
    function itself takes any frame: [Mixed.createTable] is the same code
    on a frame whose columns carry a dtype and whose cells can hold
    text. *)
Module Mixed.

Inductive dtype := float64 | object.

(** A cell: a number, text, or a missing value. *)
Inductive obj :=
| Number (z : Z)
| Text (s : string)
| NaN.

Record xrow := mk_xrow {
  x_id : string;
  x_bins : option string;
  x_lat : option Z;
  x_long : option Z;
  x_vals : list (string * obj)
}.

Record xframe := mk_xframe {
  x_cols : list (string * dtype);
  x_rows : list xrow
}.

(** The group keys of a row, and the frame reduced to its column names
    and to the group keys of its rows. *)
Definition key_row (r : xrow) : row :=
  mk_row (x_id r) (x_bins r) (x_lat r) (x_long r) [].

Definition key_frame (f : xframe) : frame :=
  mk_frame (map fst (x_cols f)) (map key_row (x_rows f)).

Definition get_obj (r : xrow) (nm : string) : obj :=
  match dict_get (x_vals r) nm with
  | Some c => c
  | None => NaN
  end.

Definition notna (c : obj) : bool :=
  match c with
  | NaN => false
  | _ => true
  end.

(** [series.sum()] on a float column: missing values are skipped (a float
    column holds no text). *)
Definition float_sum (series : list obj) : Z :=
  fold_right (fun c acc => match c with
                           | Number z => (z + acc)%Z
                           | _ => acc
                           end) 0%Z series.

(** [custom_aggregate]: the sum for a numeric column, otherwise the first
    value that is not missing ([None] when there is none). *)
Definition custom_aggregate (dt : dtype) (series : list obj) : obj :=
  match dt with
  | float64 => Number (float_sum series)
  | object => match filter notna series with
              | [] => NaN
              | c :: _ => c
              end
  end.

Record xsite := mk_xsite {
  xs_lat : Z;
  xs_long : Z;
  xs_bins : string;
  xs_id : option string;
  xs_vals : list (string * obj)
}.

Record xbin := mk_xbin {
  xn_bins : string;
  xn_vals : list (string * obj)
}.

(** The rows of the site-level table. *)
Definition site_groups (combined_df : xframe) : list xsite :=
  map (fun k =>
         let group := filter (fun r => in_site k (key_row r)) (x_rows combined_df) in
         let '(a, o, b) := k in
         mk_xsite a o b
           (custom_aggregate_object (map (fun r => Some (x_id r)) group))
           (map (fun nd => (fst nd,
                            custom_aggregate (snd nd)
                              (map (fun r => get_obj r (fst nd)) group)))
                (x_cols combined_df)))
      (site_keys (key_frame combined_df)).

(** [a + b] on two cells that are not missing; TypeError when one is a
    number and the other text. *)
Definition py_add (a b : obj) : option obj :=
  match a, b with
  | Number x, Number y => Some (Number (x + y))
  | Text s, Text t => Some (Text (s ++ t))
  | _, _ => None
  end.

(** The group aggregation 'sum': on an object column the cells that are
    not missing are added from the first on (text is concatenated), and a
    group without such a cell sums to 0. *)
Definition group_sum (dt : dtype) (series : list obj) : option obj :=
  match dt with
  | float64 => Some (Number (float_sum series))
  | object =>
      match filter notna series with
      | [] => Some (Number 0)
      | c :: rest => fold_left (fun acc x => a <- acc ;; py_add a x) rest (Some c)
      end
  end.

Definition dtype_of (combined_df : xframe) (nm : string) : dtype :=
  match dict_get (x_cols combined_df) nm with
  | Some dt => dt
  | None => object
  end.

Fixpoint all_some {A : Type} (l : list (option A)) : option (list A) :=
  match l with
  | [] => Some []
  | x :: r => a <- x ;; rest <- all_some r ;; Some (a :: rest)
  end.

(** The cells of column [nm] in the records of bin [b]. *)
Definition bin_cells (combined_df : xframe) (b nm : string) : list obj :=
  map (fun r => get_obj r nm)
      (filter (fun r => in_bin b (key_row r)) (x_rows combined_df)).

(** [combined_df.groupby(['CombinedBins'], as_index=False, observed=True)
      .agg(agg_dict)] *)
Definition bin_level (combined_df : xframe) : option (list xbin) :=
  all_some
    (map (fun b =>
            vals <- all_some
                      (map (fun nm =>
                              v <- group_sum (dtype_of combined_df nm)
                                     (bin_cells combined_df b nm) ;;
                              Some (nm, v))
                           (agg_columns (key_frame combined_df))) ;;
            Some (mk_xbin b vals))
         (bin_keys (key_frame combined_df))).

Section Coercion.

(** The number a text denotes for [pd.to_numeric]; [None] when it denotes
    none. *)
Variable to_number : string -> option Z.

(** [pd.to_numeric(v, errors='coerce')] on one element. *)
Definition to_numeric (v : obj) : obj :=
  match v with
  | Number z => Number z
  | Text s => match to_number s with
              | Some z => Number z
              | None => NaN
              end
  | NaN => NaN
  end.

(** [df[nm] = pd.to_numeric(df[nm], errors='coerce')]; KeyError when the
    column does not exist. *)
Definition coerce_column (nm : string) (cols : list string) (rows : list xbin)
  : option (list xbin) :=
  if existsb (String.eqb nm) cols then
    Some (map (fun bn =>
                 mk_xbin (xn_bins bn)
                   (map (fun nc => if String.eqb (fst nc) nm
                                   then (fst nc, to_numeric (snd nc))
                                   else nc) (xn_vals bn)))
              rows)
  else None.

(** [createTable] *)
Definition createTable (combined_df : xframe) : option (list xbin * list xsite) :=
  combined_df_inds <-
    match site_keys (key_frame combined_df) with
    | [] => None
    | _ :: _ => Some (site_groups combined_df)
    end ;;
  let cols := agg_columns (key_frame combined_df) in
  nations <- bin_level combined_df ;;
  nations <- coerce_column "y_haplos_sum" cols nations ;;
  nations <- coerce_column "mt_haplos_sum" cols nations ;;
  Some (nations, combined_df_inds).

End Coercion.

(** The value of column [nm] in a row of either table. *)
Definition bin_value (bn : xbin) (nm : string) : obj :=
  match dict_get (xn_vals bn) nm with
  | Some c => c
  | None => NaN
  end.

Definition site_value (s : xsite) (nm : string) : obj :=
  match dict_get (xs_vals s) nm with
  | Some c => c
  | None => NaN
  end.


(** A frame of numeric columns as a frame of this kind. *)
Definition of_cell (c : cell) : obj :=
  match c with
  | Some z => Number z
  | None => NaN
  end.

Definition of_row (r : row) : xrow :=
  mk_xrow (r_id r) (r_bins r) (r_lat r) (r_long r)
          (map (fun nc => (fst nc, of_cell (snd nc))) (r_vals r)).

Definition of_frame (f : frame) : xframe :=
  mk_xframe (map (fun nm => (nm, float64)) (f_cols f)) (map of_row (f_rows f)).

Definition of_bin_row (bn : bin_row) : xbin :=
  mk_xbin (n_bins bn) (map (fun nc => (fst nc, of_cell (snd nc))) (n_vals bn)).

Definition of_site_row (s : site_row) : xsite :=
  mk_xsite (s_lat s) (s_long s) (s_bins s) (s_id s)
           (map (fun nc => (fst nc, Number (snd nc))) (s_vals s)).

End Mixed.

(* ================================================================= *)
(** * Properties *)

Lemma split_nonempty (sep : ascii) (s : string) : PyStr.split sep s <> [].
Proof.
  induction s as [|c r IH]; simpl; [discriminate|].
  destruct (Ascii.eqb c sep); [discriminate|].
  destruct (PyStr.split sep r); [contradiction | discriminate].
Qed.

Lemma first_field_truncate (sep : ascii) (s : string) :
  PyStr.first_field sep s = truncate_at sep s.
Proof.
  unfold PyStr.first_field.
  induction s as [|c r IH]; simpl; [reflexivity|].
  destruct (Ascii.eqb c sep); [reflexivity|].
  pose proof (split_nonempty sep r) as Hne.
  destruct (PyStr.split sep r) as [|h t]; [contradiction|].
  simpl in *. now rewrite IH.
Qed.

Lemma remove_two_markers (s : string) :
  PyStr.remove_char "*" (PyStr.remove_char "~" s) = strip_markers s.
Proof.
  induction s as [|c r IH]; simpl; [reflexivity|].
  destruct (Ascii.eqb c "~") eqn:E1; simpl; [exact IH|].
  destruct (Ascii.eqb c "*") eqn:E2; simpl; [exact IH | now rewrite IH].
Qed.

Lemma clean_refines_spec (s : string) : clean s = normalize_spec s.
Proof.
  unfold clean, normalize_spec.
  now rewrite remove_two_markers, !first_field_truncate.
Qed.

(** [truncate_at c s] is the longest prefix of [s] without [c]. *)
Lemma truncate_at_prefix (c : ascii) (s : string) :
  exists rest,
    s = (truncate_at c s ++ rest)%string
    /\ PyStr.mem_char c (truncate_at c s) = false
    /\ (rest = EmptyString \/ exists r, rest = String c r).
Proof.
  induction s as [|d r IH]; simpl.
  - exists EmptyString. auto.
  - destruct (Ascii.eqb d c) eqn:E.
    + apply Ascii.eqb_eq in E. subst d.
      exists (String c r). simpl. eauto.
    + destruct IH as (rest & Hs & Hm & Hr).
      exists rest. simpl. rewrite E, Hm. split; [now rewrite <- Hs | auto].
Qed.

Lemma strip_markers_free (s : string) :
  PyStr.mem_char "~" (strip_markers s) = false
  /\ PyStr.mem_char "*" (strip_markers s) = false.
Proof.
  induction s as [|d r [IH1 IH2]]; simpl; [auto|].
  destruct (Ascii.eqb d "~") eqn:E1; simpl; [auto|].
  destruct (Ascii.eqb d "*") eqn:E2; simpl; [auto|].
  now rewrite E1, E2, IH1, IH2.
Qed.

Lemma truncate_at_absent (c : ascii) (s : string) :
  PyStr.mem_char c s = false -> truncate_at c s = s.
Proof.
  induction s as [|d r IH]; simpl; [reflexivity|].
  destruct (Ascii.eqb d c); simpl; [discriminate|].
  intros H. now rewrite IH.
Qed.

Lemma strip_markers_absent (s : string) :
  PyStr.mem_char "~" s = false -> PyStr.mem_char "*" s = false ->
  strip_markers s = s.
Proof.
  induction s as [|d r IH]; simpl; [reflexivity|].
  destruct (Ascii.eqb d "~"); simpl; [discriminate|].
  destruct (Ascii.eqb d "*"); simpl; [discriminate|].
  intros H1 H2. now rewrite IH.
Qed.

Lemma isspace_not_mark (c d : ascii) :
  PyStr.isspace d = false -> PyStr.isspace c = true -> Ascii.eqb c d = false.
Proof.
  intros Hd Hc. destruct (Ascii.eqb c d) eqn:E; [|reflexivity].
  apply Ascii.eqb_eq in E. subst. congruence.
Qed.

Lemma spaces_have_no_mark (d : ascii) (s : string) :
  PyStr.isspace d = false ->
  PyStr.forallb_string PyStr.isspace s = true ->
  PyStr.mem_char d s = false.
Proof.
  intros Hd. induction s as [|c r IH]; simpl; [reflexivity|].
  intros H. apply andb_true_iff in H as [Hc Hr].
  now rewrite (isspace_not_mark c d Hd Hc), IH.
Qed.

(** C8 (as amended): the clean-up is the truncation at the first ';', then
    at the first '-', then at the first '(', followed by the removal of
    every '~' and '*'; the empty string is mapped to the empty string; a
    whitespace-only string is returned as it is (nothing is stripped). *)
Theorem C8_label_normalizer (s : string) :
  clean s = strip_markers (truncate_at "(" (truncate_at "-" (truncate_at ";" s)))
  /\ clean "" = ""
  /\ (whitespace_only s = true -> clean s = s).
Proof.
  split; [apply clean_refines_spec|]. split; [reflexivity|].
  intros H. unfold whitespace_only in H.
  apply andb_true_iff in H as [_ H].
  rewrite clean_refines_spec. unfold normalize_spec.
  rewrite (truncate_at_absent ";" s) by now apply spaces_have_no_mark.
  rewrite (truncate_at_absent "-" s) by now apply spaces_have_no_mark.
  rewrite (truncate_at_absent "(" s) by now apply spaces_have_no_mark.
  apply strip_markers_absent; now apply spaces_have_no_mark.
Qed.

Lemma C8_label_normalizer_witness :
  whitespace_only "  " = true /\ clean "  " = "  ".
Proof.
  split; [reflexivity|].
  apply (C8_label_normalizer "  "). reflexivity.
Defined.

(** C8 as stated fails: a whitespace-only input is not mapped to the empty
    string. *)
Lemma C8_whitespace_counterexample :
  whitespace_only " " = true /\ clean " " <> "".
Proof. split; [reflexivity | discriminate]. Qed.

(* ----------------------------------------------------------------- *)
(** ** Alias tables *)

Lemma dict_get_set {V : Type} (d : list (string * V)) (k k' : string) (v : V) :
  dict_get (dict_set d k v) k' = if String.eqb k k' then Some v else dict_get d k'.
Proof.
  induction d as [|[k0 v0] r IH]; simpl; [reflexivity|].
  destruct (String.eqb k0 k) eqn:E0; simpl.
  - apply String.eqb_eq in E0. subst k0.
    now destruct (String.eqb k k').
  - rewrite IH. destruct (String.eqb k0 k') eqn:E1; [|reflexivity].
    apply String.eqb_eq in E1. subst k0. now rewrite String.eqb_sym, E0.
Qed.

Lemma last_key_for_cons (kv : string * string) (d : pydict) (v : string) :
  last_key_for (kv :: d) v =
  match last_key_for d v with
  | Some k => Some k
  | None => if String.eqb (snd kv) v then Some (fst kv) else None
  end.
Proof.
  unfold last_key_for. simpl rev.
  induction (rev d) as [|e r IH]; simpl.
  - now destruct (String.eqb (snd kv) v).
  - destruct (String.eqb (snd e) v); [reflexivity | exact IH].
Qed.

Lemma dict_inv_fold (d acc : pydict) (v : string) :
  dict_get (fold_left (fun a kv => dict_set a (snd kv) (fst kv)) d acc) v =
  match last_key_for d v with
  | Some k => Some k
  | None => dict_get acc v
  end.
Proof.
  revert acc. induction d as [|kv d IH]; intros acc; simpl fold_left.
  - reflexivity.
  - rewrite IH, last_key_for_cons, dict_get_set.
    destruct (last_key_for d v); [reflexivity|].
    now destruct (String.eqb (snd kv) v).
Qed.

(** Looking a value up in the reversed dict finds the key of the last
    entry that maps to it. *)
Lemma dict_inv_get (d : pydict) (v : string) :
  dict_get (dict_inv d) v = last_key_for d v.
Proof.
  unfold dict_inv. rewrite dict_inv_fold.
  now destruct (last_key_for d v).
Qed.

(* ----------------------------------------------------------------- *)
(** ** One round *)

Lemma list_set_middle (l1 l2 : list string) (h v : string) :
  list_set (List.length l1) v (l1 ++ h :: l2) = l1 ++ v :: l2.
Proof. induction l1 as [|x l1 IH]; simpl; [reflexivity | now rewrite IH]. Qed.

Lemma nth_error_middle (l1 l2 : list string) (h : string) :
  nth_error (l1 ++ h :: l2) (List.length l1) = Some h.
Proof. induction l1 as [|x l1 IH]; simpl; [reflexivity | exact IH]. Qed.

Lemma y_for_from (basal snp locus : pydict) (l2 l1 : list string) :
  y_for basal snp locus (List.length l2) (List.length l1) (l1 ++ l2)
  = l1 ++ map (y_step basal snp locus) l2.
Proof.
  revert l1. induction l2 as [|h t IH]; intros l1; simpl.
  - reflexivity.
  - rewrite nth_error_middle.
    assert (Hstep : match y_assign basal snp locus h with
                    | Some v => list_set (List.length l1) v (l1 ++ h :: t)
                    | None => l1 ++ h :: t
                    end = (l1 ++ [y_step basal snp locus h]) ++ t).
    { unfold y_step. rewrite <- app_assoc. simpl.
      destruct (y_assign basal snp locus h); [apply list_set_middle | reflexivity]. }
    rewrite Hstep.
    replace (S (List.length l1))
      with (List.length (l1 ++ [y_step basal snp locus h]))
      by (rewrite length_app; simpl; lia).
    rewrite IH, <- app_assoc. reflexivity.
Qed.

(** The in-place [for] loop is a simultaneous update of every position. *)
Lemma y_for_map (basal snp locus : pydict) (data : list string) :
  y_for basal snp locus (List.length data) 0 data
  = map (y_step basal snp locus) data.
Proof. exact (y_for_from basal snp locus data []). Qed.

(** The mitochondrial loop is the Y loop without a locus table. *)
Lemma mt_assign_as_y (basal mutant : pydict) (h : string) :
  mt_assign basal mutant h = y_assign basal mutant [] h.
Proof.
  unfold mt_assign, y_assign.
  destruct (1 <? String.length h); [|reflexivity].
  destruct (dict_in basal h && negb (no_parent (dict_at basal h)));
    [reflexivity|].
  now destruct (dict_in (dict_inv mutant) h).
Qed.

Lemma mt_for_as_y (basal mutant : pydict) (n index : nat) (data : list string) :
  mt_for basal mutant n index data = y_for basal mutant [] n index data.
Proof.
  revert index data. induction n as [|n IH]; intros index data; simpl;
    [reflexivity|].
  destruct (nth_error data index); [|reflexivity].
  now rewrite mt_assign_as_y, IH.
Qed.

Lemma mt_step_as_y (basal mutant : pydict) (key : string) :
  mt_step basal mutant key = y_step basal mutant [] key.
Proof. unfold mt_step, y_step. now rewrite mt_assign_as_y. Qed.

Lemma mt_for_map (basal mutant : pydict) (data : list string) :
  mt_for basal mutant (List.length data) 0 data
  = map (mt_step basal mutant) data.
Proof.
  rewrite mt_for_as_y, y_for_map. apply map_ext. intros k.
  symmetry. apply mt_step_as_y.
Qed.

Lemma y_step_short (basal snp locus : pydict) (key : string) :
  String.length key <= 1 -> y_step basal snp locus key = key.
Proof.
  intros H. unfold y_step, y_assign.
  destruct (Nat.ltb_spec 1 (String.length key)); [lia | reflexivity].
Qed.

Lemma y_step_rule (basal snp locus : pydict) (key : string) :
  1 < String.length key -> rule basal snp locus key (y_step basal snp locus key).
Proof.
  intros H. unfold y_step, y_assign, dict_in, dict_at.
  destruct (Nat.ltb_spec 1 (String.length key)); [|lia].
  rewrite dict_inv_get.
  assert (Hrest : (forall v, dict_get basal key = Some v -> no_parent v = true) ->
            rule basal snp locus key
              match
                (if match last_key_for snp key with Some _ => true | None => false end
                 then Some match last_key_for snp key with
                           | Some k => k
                           | None => EmptyString
                           end
                 else if match dict_get locus key with Some _ => true | None => false end
                 then Some match dict_get locus key with
                           | Some v => v
                           | None => EmptyString
                           end
                 else Some na)
              with
              | Some v => v
              | None => key
              end).
  { intros Hh. destruct (last_key_for snp key) eqn:E2.
    - now apply rule_reverse.
    - destruct (dict_get locus key) eqn:E3.
      + now apply rule_secondary.
      + now apply rule_sentinel. }
  destruct (dict_get basal key) as [v|] eqn:E1.
  - destruct (no_parent v) eqn:En; cbn [negb andb].
    + apply Hrest. intros v' Hv'. congruence.
    + now apply rule_hierarchy.
  - cbn [andb]. apply Hrest. discriminate.
Qed.

Lemma rule_functional (hier xref second : pydict) (key a b : string) :
  rule hier xref second key a -> rule hier xref second key b -> a = b.
Proof.
  intros Ha Hb.
  destruct Ha as [v Hv Hn | k Hh Hk | v Hh Hk Hv | Hh Hk Hv];
  destruct Hb as [v' Hv' Hn' | k' Hh' Hk' | v' Hh' Hk' Hv' | Hh' Hk' Hv'];
    try congruence;
    try (specialize (Hh' _ Hv); congruence);
    try (specialize (Hh _ Hv'); congruence).
Qed.

(** C6 (as amended): a round rewrites every position independently; it
    leaves the keys of length at most one alone and applies the priority
    chain (hierarchy table unless the parent is '#' or 'Root', then the
    reversed cross-reference table, then the secondary table, then
    "n/a") to every key longer than one character, the sentinels included;
    the chain has exactly one outcome; the mitochondrial round is the same
    with no secondary table; a key "n/a" found in no table stays "n/a". *)
Theorem C6_round_rule (basal snp locus : pydict) (data : list string) :
  y_for basal snp locus (List.length data) 0 data
    = map (y_step basal snp locus) data
  /\ mt_for basal snp (List.length data) 0 data
    = map (y_step basal snp []) data
  /\ (forall key, String.length key <= 1 -> y_step basal snp locus key = key)
  /\ (forall key new, 1 < String.length key ->
        (rule basal snp locus key new <-> y_step basal snp locus key = new))
  /\ (dict_get basal na = None -> last_key_for snp na = None ->
      dict_get locus na = None -> y_step basal snp locus na = na).
Proof.
  split; [apply y_for_map|].
  split; [rewrite mt_for_as_y; apply y_for_map|].
  split; [intros key; apply y_step_short|].
  split.
  - intros key new Hlen. split.
    + intros Hr. eapply rule_functional; [|exact Hr]. now apply y_step_rule.
    + intros <-. now apply y_step_rule.
  - intros H1 H2 H3.
    assert (Hlen : 1 < String.length na) by (simpl; lia).
    eapply rule_functional; [now apply y_step_rule|].
    apply rule_sentinel; [intros v Hv; congruence | assumption | assumption].
Qed.

Lemma C6_round_rule_witness :
  y_step [("R1b", "R1")] [] [] "R" = "R"
  /\ rule [("R1b", "R1")] [] [] "R1b" "R1"
  /\ y_step [] [] [] na = na.
Proof.
  pose proof (C6_round_rule [("R1b", "R1")] [] [] ["R1b"]) as (_ & _ & H3 & H4 & _).
  pose proof (C6_round_rule [] [] [] []) as (_ & _ & _ & _ & H5).
  split; [apply H3; simpl; lia|].
  split; [apply H4; [simpl; lia | reflexivity]|].
  apply H5; reflexivity.
Defined.

(** C6 as stated fails: a sentinel key is not exempt from the round.  With
    "n/a" in the hierarchy table the round replaces the key "n/a", and a key
    'n/a(Female)' in no table is replaced by "n/a"; a round that skipped
    the sentinel would keep either. *)
Lemma C6_sentinel_counterexample :
  (y_for [("n/a", "R")] [] [] 1 0 ["n/a"] = ["R"]
   /\ forall new, spec_round_key na [("n/a", "R")] [] [] "n/a" new -> new = "n/a")
  /\ (y_for [] [] [] 1 0 ["n/a(Female)"] = ["n/a"]
      /\ forall new, spec_round_key na_female [] [] [] "n/a(Female)" new ->
                     new = "n/a(Female)").
Proof.
  split; (split; [reflexivity|]); intros new H;
    destruct H as [_ | new' _ Hneq _]; try reflexivity; now elim Hneq.
Qed.

(* ----------------------------------------------------------------- *)
(** ** The [while] loops *)

Lemma y_rounds_succ (basal snp locus : pydict) (n : nat) (data : list string) :
  y_rounds basal snp locus (S n) data
  = y_rounds basal snp locus n (y_for basal snp locus (List.length data) 0 data).
Proof.
  unfold y_rounds.
  exact (Nat.iter_succ_r n _ (fun d => y_for basal snp locus (List.length d) 0 d) data).
Qed.


Lemma y_while_S (basal snp locus : pydict) (fuel : nat) (st : ystate) :
  y_while basal snp locus (S fuel) st
  = if y_cond st then y_while basal snp locus fuel (y_body basal snp locus st)
    else st.
Proof. reflexivity. Qed.

Lemma mt_while_S (basal mutant : pydict) (fuel : nat) (st : mtstate) :
  mt_while basal mutant (S fuel) st
  = if mt_cond st then mt_while basal mutant fuel (mt_body basal mutant st)
    else st.
Proof. reflexivity. Qed.

(** With fuel for the rounds that are left, the loop runs [k] rounds where
    [k] is the first round count at which nothing is pending or the
    counter has reached the bound. *)
Lemma y_while_spec (basal snp locus : pydict) (fuel : nat) (st : ystate) :
  y_loop st + fuel = MAX_LOOPS ->
  exists k,
    let r := y_while basal snp locus fuel st in
    y_loop r = y_loop st + k
    /\ k <= fuel
    /\ y_haplo_data r = y_rounds basal snp locus k (y_haplo_data st)
    /\ (forall m, m < k ->
          pending (y_rounds basal snp locus m (y_haplo_data st)) = true)
    /\ (y_loop r = MAX_LOOPS \/ pending (y_haplo_data r) = false)
    /\ y_column r = (if k =? 0 then y_column st else y_haplo_data r).
Proof.
  revert st. induction fuel as [|fuel IH]; intros st Hfuel.
  - exists 0. simpl. repeat split; try lia; auto.
  - rewrite y_while_S. unfold y_cond.
    destruct (pending (y_haplo_data st)) eqn:Hp; simpl andb.
    + destruct (Nat.ltb_spec (y_loop st) MAX_LOOPS); [|lia].
      destruct (IH (y_body basal snp locus st)) as (k & H1 & H2 & H3 & H4 & H5 & H6);
        [simpl; lia|].
      exists (S k). cbv zeta in *. simpl y_loop in H1. simpl y_haplo_data in H3, H4.
      repeat split.
      * lia.
      * lia.
      * now rewrite y_rounds_succ.
      * intros [|m] Hm; [exact Hp|]. rewrite y_rounds_succ. apply H4. lia.
      * exact H5.
      * simpl Nat.eqb. rewrite H6. destruct k; [|reflexivity].
        simpl. now rewrite H3.
    + exists 0. simpl. repeat split; try lia; auto.
Qed.

Lemma mt_while_as_y (basal mutant : pydict) (fuel l : nat) (d c : list string) :
  mt_while basal mutant fuel (mk_mtstate l d)
  = let r := y_while basal mutant [] fuel (mk_ystate l d c) in
    mk_mtstate (y_loop r) (y_haplo_data r).
Proof.
  revert l d c. induction fuel as [|fuel IH]; intros l d c; [reflexivity|].
  rewrite mt_while_S, y_while_S. unfold mt_cond, y_cond.
  cbn [mt_haplo_data mt_loop y_haplo_data y_loop].
  destruct (pending d && (l <? MAX_LOOPS)); [|reflexivity].
  unfold mt_body, y_body. cbn [mt_haplo_data mt_loop y_haplo_data y_loop].
  rewrite mt_for_as_y. apply IH.
Qed.

(** The mitochondrial resolver computes what the Y resolver computes
    without a locus table. *)
Lemma findMT_as_findY (basal mutant : pydict) (raw : list string) :
  let st := findYBasalHaplogroups basal mutant [] raw in
  findMTBasalHaplogroups basal mutant raw
  = mk_mt_columns (y_loop st) raw (y_haplo_data st).
Proof.
  unfold findMTBasalHaplogroups, findYBasalHaplogroups.
  rewrite (mt_while_as_y basal mutant MAX_LOOPS 0 (map clean raw) raw).
  reflexivity.
Qed.

Lemma findY_spec (basal snp locus : pydict) (raw : list string) :
  let st := findYBasalHaplogroups basal snp locus raw in
  y_loop st <= MAX_LOOPS
  /\ y_haplo_data st = y_rounds basal snp locus (y_loop st) (map clean raw)
  /\ (forall m, m < y_loop st ->
        pending (y_rounds basal snp locus m (map clean raw)) = true)
  /\ (y_loop st = MAX_LOOPS \/ pending (y_haplo_data st) = false)
  /\ y_column st = (if y_loop st =? 0 then raw else y_haplo_data st).
Proof.
  destruct (y_while_spec basal snp locus MAX_LOOPS (mk_ystate 0 (map clean raw) raw))
    as (k & H1 & H2 & H3 & H4 & H5 & H6); [reflexivity|].
  cbv zeta in *. unfold findYBasalHaplogroups.
  cbn [y_loop y_haplo_data y_column] in H1, H3, H4, H6.
  rewrite Nat.add_0_l in H1. subst k. repeat split; auto.
Qed.









(* ----------------------------------------------------------------- *)
(** ** Single letters are fixed *)

Lemma y_rounds_fixed (basal snp locus : pydict) (n i : nat)
  (data : list string) (key : string) :
  nth_error data i = Some key -> String.length key <= 1 ->
  nth_error (y_rounds basal snp locus n data) i = Some key.
Proof.
  intros Hi Hlen. induction n as [|n IH]; [exact Hi|].
  unfold y_rounds in *. simpl Nat.iter. rewrite y_for_map.
  rewrite nth_error_map, IH. simpl. now rewrite y_step_short.
Qed.

(** A record whose cleaned key is a single character keeps that key
    through every round and in the working list of the resolver, on both
    tracks, whatever the tables and the other records are; a batch made of
    that record alone takes no round at all; the column of the Y data frame
    holds the letter on return when the raw string is that letter itself or
    when a round has been performed. *)
Lemma single_letter_key_fixed (hier xref second : pydict) (raw : list string)
  (i : nat) (key : string) :
  nth_error (map clean raw) i = Some key ->
  String.length key = 1 ->
  nth_error (y_haplo_data (findYBasalHaplogroups hier xref second raw)) i = Some key
  /\ nth_error (mt_updated (findMTBasalHaplogroups hier xref raw)) i = Some key
  /\ (forall n, nth_error (y_rounds hier xref second n (map clean raw)) i = Some key)
  /\ (forall r, clean r = key ->
        y_loop (findYBasalHaplogroups hier xref second [r]) = 0
        /\ mt_rounds (findMTBasalHaplogroups hier xref [r]) = 0)
  /\ (nth_error raw i = Some key
      \/ 1 <= y_loop (findYBasalHaplogroups hier xref second raw) ->
      nth_error (y_column (findYBasalHaplogroups hier xref second raw)) i = Some key).
Proof.
  intros Hi Hlen.
  assert (Hfix : forall second' n,
            nth_error (y_rounds hier xref second' n (map clean raw)) i = Some key).
  { intros second' n. apply y_rounds_fixed; [exact Hi | lia]. }
  split; [|split; [|split; [|split]]].
  - destruct (findY_spec hier xref second raw) as (_ & H2 & _).
    rewrite H2. apply Hfix.
  - rewrite findMT_as_findY. cbn [mt_updated].
    destruct (findY_spec hier xref [] raw) as (_ & H2 & _).
    rewrite H2. apply Hfix.
  - apply Hfix.
  - intros r Hr.
    assert (Hz : forall second', y_loop (findYBasalHaplogroups hier xref second' [r]) = 0).
    { intros second'. unfold findYBasalHaplogroups, MAX_LOOPS.
      rewrite y_while_S. unfold y_cond, pending.
      cbn [y_loop y_haplo_data map existsb]. rewrite Hr.
      destruct (Nat.ltb_spec 1 (String.length key)); [lia | reflexivity]. }
    split; [apply Hz|]. rewrite findMT_as_findY. cbn [mt_rounds]. apply Hz.
  - intros Hraw.
    destruct (findY_spec hier xref second raw) as (_ & H2 & _ & _ & H5).
    rewrite H5.
    destruct (Nat.eqb_spec (y_loop (findYBasalHaplogroups hier xref second raw)) 0)
      as [Hz|Hz]; [|rewrite H2; apply Hfix].
    destruct Hraw as [Hraw|Hran]; [exact Hraw | lia].
Qed.

(** C9: evaluation at the failing input, for any tables.  The raw string
    "R~" has the single letter "R" as its candidate key, so the batch made
    of that record takes no round; the Y resolver assigns the column of the
    data frame it returns only inside the loop, so the column it returns
    still holds "R~", not "R".  The mitochondrial resolver, which assigns
    its column after the loop, returns "R". *)
Theorem C9_letter_not_written_back (hier xref second : pydict) :
  let st := findYBasalHaplogroups hier xref second ["R~"] in
  clean "R~" = "R"
  /\ y_loop st = 0
  /\ y_haplo_data st = ["R"]
  /\ y_column st = ["R~"]
  /\ mt_updated (findMTBasalHaplogroups hier xref ["R~"]) = ["R"].
Proof.
  cbv zeta. unfold findMTBasalHaplogroups, findYBasalHaplogroups, MAX_LOOPS.
  rewrite y_while_S, mt_while_S. repeat split; reflexivity.
Qed.

(* ----------------------------------------------------------------- *)
(** ** Distinct values and sorting *)

Section Distinct.

Context {A : Type} (eqb : A -> A -> bool).
Hypothesis eqb_spec : forall x y, eqb x y = true <-> x = y.

Lemma distinct_In (l : list A) (x : A) : In x (distinct eqb l) <-> In x l.
Proof.
  induction l as [|a l IH]; simpl; [tauto|].
  rewrite filter_In, IH, negb_true_iff.
  split.
  - intros [H|[H _]]; auto.
  - intros [H|H]; [now left|].
    destruct (eqb a x) eqn:E; [left; now apply eqb_spec | right; auto].
Qed.

Lemma distinct_NoDup (l : list A) : NoDup (distinct eqb l).
Proof.
  induction l as [|a l IH]; simpl; constructor.
  - rewrite filter_In, negb_true_iff. intros [_ H].
    assert (eqb a a = true) by now apply eqb_spec. congruence.
  - now apply NoDup_filter.
Qed.

End Distinct.

Lemma insert_sorted_perm {A : Type} (leb : A -> A -> bool) (x : A) (l : list A) :
  Permutation (insert_sorted leb x l) (x :: l).
Proof.
  induction l as [|y l IH]; simpl; [reflexivity|].
  destruct (leb x y); [reflexivity|].
  rewrite IH. apply perm_swap.
Qed.

Lemma isort_perm {A : Type} (leb : A -> A -> bool) (l : list A) :
  Permutation (isort leb l) l.
Proof.
  induction l as [|x l IH]; simpl; [reflexivity|].
  now rewrite insert_sorted_perm, IH.
Qed.

Lemma isort_In {A : Type} (leb : A -> A -> bool) (l : list A) (x : A) :
  In x (isort leb l) <-> In x l.
Proof.
  split; apply Permutation_in; [|symmetry]; apply isort_perm.
Qed.

Lemma isort_NoDup {A : Type} (leb : A -> A -> bool) (l : list A) :
  NoDup l -> NoDup (isort leb l).
Proof. apply Permutation_NoDup. symmetry. apply isort_perm. Qed.

(* ----------------------------------------------------------------- *)
(** ** The one-hot frame *)

Lemma get_dummies_names (keys : list string) :
  map fst (get_dummies keys) = isort String.leb (distinct String.eqb keys).
Proof.
  unfold get_dummies. rewrite map_map. simpl. apply map_id.
Qed.

Lemma get_dummies_names_In (keys : list string) (nm : string) :
  In nm (map fst (get_dummies keys)) <-> In nm keys.
Proof.
  rewrite get_dummies_names, isort_In.
  apply distinct_In. apply String.eqb_eq.
Qed.

Lemma get_dummies_names_NoDup (keys : list string) :
  NoDup (map fst (get_dummies keys)).
Proof.
  rewrite get_dummies_names. apply isort_NoDup, distinct_NoDup.
  apply String.eqb_eq.
Qed.

Lemma dict_get_tabulate {V : Type} (f : string -> V) (l : list string) (k : string) :
  In k l -> dict_get (map (fun v => (v, f v)) l) k = Some (f k).
Proof.
  induction l as [|a l IH]; simpl; [tauto|].
  intros H. destruct (String.eqb a k) eqn:E.
  - apply String.eqb_eq in E. now subst.
  - destruct H as [H|H]; [|auto]. subst. now rewrite String.eqb_refl in E.
Qed.

Lemma get_dummies_column (keys : list string) (nm : string) :
  In nm keys -> dict_get (get_dummies keys) nm = Some (indicator nm keys).
Proof.
  intros H. unfold get_dummies.
  apply (dict_get_tabulate (fun v => indicator v keys)).
  apply isort_In, distinct_In; [apply String.eqb_eq | exact H].
Qed.

Lemma indicator_nth (v : string) (keys : list string) (i : nat) (k : string) :
  nth_error keys i = Some k ->
  nth i (indicator v keys) 0%Z = if String.eqb k v then 1%Z else 0%Z.
Proof.
  revert i. induction keys as [|a keys IH]; intros [|i]; simpl; try discriminate.
  - now intros [= ->].
  - apply IH.
Qed.

Lemma indicator_length (v : string) (keys : list string) :
  List.length (indicator v keys) = List.length keys.
Proof. apply length_map. Qed.

(** In the frame [pd.get_dummies] returns, the row of a record holds 1 in
    the column named by the record's key and 0 in every other column. *)
Lemma get_dummies_one_hot (keys : list string) (i : nat) (k : string) :
  nth_error keys i = Some k ->
  In k (map fst (get_dummies keys))
  /\ forall nm, In nm (map fst (get_dummies keys)) ->
       nth i (column_of (get_dummies keys) nm) 0%Z
       = if String.eqb k nm then 1%Z else 0%Z.
Proof.
  intros Hi. split.
  - apply get_dummies_names_In. eapply nth_error_In; eauto.
  - intros nm Hnm. apply (proj1 (get_dummies_names_In keys nm)) in Hnm.
    unfold column_of. rewrite get_dummies_column by assumption.
    now apply indicator_nth.
Qed.

(* ----------------------------------------------------------------- *)
(** ** The retained columns *)

Lemma keep_None (col : string) : keep col = None <-> col = "".
Proof.
  unfold keep. destruct col as [|c r]; simpl; [tauto|].
  destruct (Ascii.eqb c "n"); simpl; split; discriminate.
Qed.

Lemma cols_to_keep_Some (cols kept : list string) :
  cols_to_keep cols = Some kept ->
  ~ In "" cols /\ kept = filter retained cols.
Proof.
  revert kept. induction cols as [|col rest IH]; intros kept; simpl.
  - intros [= <-]. auto.
  - unfold retained. destruct (keep col) as [b|] eqn:Ek; simpl; [|discriminate].
    destruct (cols_to_keep rest) as [kept'|]; simpl; [|discriminate].
    intros [= <-]. destruct (IH kept' eq_refl) as [Hne ->].
    split.
    + intros [H|H]; [|tauto]. subst col. discriminate.
    + now destruct b.
Qed.

Lemma cols_to_keep_total (cols : list string) :
  ~ In "" cols -> cols_to_keep cols = Some (filter retained cols).
Proof.
  induction cols as [|col rest IH]; simpl; [reflexivity|].
  intros H. rewrite IH by tauto. unfold retained.
  destruct (keep col) as [b|] eqn:Ek; simpl.
  - now destruct b.
  - apply keep_None in Ek. tauto.
Qed.

Lemma cols_to_keep_raises (cols : list string) :
  In "" cols -> cols_to_keep cols = None.
Proof.
  intros H. destruct (cols_to_keep cols) as [kept|] eqn:E; [|reflexivity].
  apply cols_to_keep_Some in E. tauto.
Qed.

Lemma retained_spec (col : string) :
  retained col = true <->
  exists c r, col = String c r /\ c <> "n"%char /\ PyStr.isalpha c = true.
Proof.
  unfold retained, keep. destruct col as [|c r]; simpl.
  - split; [discriminate | intros (c & r & H & _); discriminate].
  - destruct (Ascii.eqb_spec c "n").
    + subst c. simpl.
      split; [discriminate | intros (c & r' & [= <- _] & Hc & _); now elim Hc].
    + simpl. split.
      * intros H. exists c, r. auto.
      * intros (c' & r' & [= <- <-] & _ & H). exact H.
Qed.

(* ----------------------------------------------------------------- *)
(** ** The per-letter sums and the total *)

Lemma select_get_dummies (keys kept : list string) :
  (forall nm, In nm kept -> In nm keys) ->
  select (get_dummies keys) kept = map (fun nm => (nm, indicator nm keys)) kept.
Proof.
  intros H. unfold select. apply map_ext_in. intros nm Hnm.
  now rewrite get_dummies_column by auto.
Qed.

Lemma dict_set_fresh {V : Type} (d : list (string * V)) (k : string) (v : V) :
  (forall nc, In nc d -> fst nc <> k) -> dict_set d k v = d ++ [(k, v)].
Proof.
  induction d as [|[k0 v0] r IH]; simpl; intros H; [reflexivity|].
  destruct (String.eqb k0 k) eqn:E.
  - apply String.eqb_eq in E. elim (H (k0, v0)); auto.
  - now rewrite IH by auto.
Qed.

Lemma filter_none {A : Type} (p : A -> bool) (l : list A) :
  (forall x, In x l -> p x = false) -> filter p l = [].
Proof.
  induction l as [|a l IH]; simpl; intros H; [reflexivity|].
  rewrite (H a) by auto. apply IH. auto.
Qed.

Lemma filter_all {A : Type} (p : A -> bool) (l : list A) :
  (forall x, In x l -> p x = true) -> filter p l = l.
Proof.
  induction l as [|a l IH]; simpl; intros H; [reflexivity|].
  rewrite (H a) by auto. now rewrite IH by auto.
Qed.

Lemma filter_tabulate {V : Type} (f : string -> V) (p : string -> bool)
  (l : list string) :
  map snd (filter (fun nc => p (fst nc)) (map (fun v => (v, f v)) l))
  = map f (filter p l).
Proof.
  induction l as [|a l IH]; simpl; [reflexivity|].
  destruct (p a); simpl; now rewrite IH.
Qed.

Lemma contains_suffix (p s : string) (c : ascii) :
  PyStr.contains p s = true -> PyStr.contains p (String c s) = true.
Proof. intros H. simpl. rewrite H. apply orb_true_r. Qed.

Lemma startswith_letter (c letter : ascii) (r : string) :
  PyStr.startswith (String c r) (String letter EmptyString) = Ascii.eqb c letter.
Proof. simpl. apply andb_true_r. Qed.

Section LetterSums.

Variables (suffix : string) (n : nat) (d : dummies).

Hypothesis suffix_sum : PyStr.contains "_sum" suffix = true.
Hypothesis d_sum_free : sum_free (map fst d).

Let sum_col (letter : ascii) : string * column :=
  (String letter suffix,
   sum_axis1 n
     (map snd (filter (fun nc => PyStr.startswith (fst nc) (String letter EmptyString)) d))).

Lemma letter_sums_from (letters done : list ascii) :
  NoDup (done ++ letters) ->
  letter_sums suffix n letters (d ++ map sum_col done)
  = d ++ map sum_col (done ++ letters).
Proof.
  revert done. induction letters as [|letter letters IH]; intros done Hnd.
  - now rewrite app_nil_r.
  - unfold letter_sums in *. simpl fold_left.
    assert (Hfresh : ~ In letter done).
    { apply NoDup_remove_2 in Hnd. intros H. apply Hnd, in_or_app. auto. }
    assert (Hstep : add_letter_sum suffix n (d ++ map sum_col done) letter
                    = d ++ map sum_col (done ++ [letter])).
    { unfold add_letter_sum. rewrite filter_app.
      rewrite (filter_none _ (map sum_col done)).
      - rewrite app_nil_r, dict_set_fresh.
        + rewrite map_app, <- app_assoc. reflexivity.
        + intros nc Hnc Heq. apply in_app_or in Hnc as [Hnc|Hnc].
          * pose proof (d_sum_free (fst nc) (in_map fst _ _ Hnc)) as Hc.
            rewrite Heq, (contains_suffix _ _ _ suffix_sum) in Hc. discriminate.
          * apply in_map_iff in Hnc as (m & <- & Hm). simpl in Heq.
            injection Heq as ->. contradiction.
      - intros nc Hnc. apply in_map_iff in Hnc as (m & <- & Hm).
        unfold sum_col. cbn [fst]. rewrite startswith_letter.
        destruct (Ascii.eqb_spec m letter); [subst; contradiction | reflexivity]. }
    rewrite Hstep, IH; rewrite <- app_assoc; [reflexivity | exact Hnd].
Qed.

Lemma letter_sums_shape (letters : list ascii) :
  NoDup letters ->
  letter_sums suffix n letters d = d ++ map sum_col letters.
Proof.
  intros H. pose proof (letter_sums_from letters [] H) as E.
  simpl in E. now rewrite app_nil_r in E.
Qed.

Lemma summed_shape (total : string) (letters : list ascii) :
  (forall letter, String letter suffix <> total) ->
  summed total n (d ++ map sum_col letters)
  = map sum_col letters
    ++ [(total, sum_axis1 n (map snd (map sum_col letters)))].
Proof.
  intros Htotal. unfold summed. rewrite filter_app.
  rewrite (filter_none _ d), (filter_all _ (map sum_col letters)).
  - simpl. apply dict_set_fresh.
    intros nc Hnc. apply in_map_iff in Hnc as (m & <- & _). apply Htotal.
  - intros nc Hnc. apply in_map_iff in Hnc as (m & <- & _).
    now apply contains_suffix.
  - intros nc Hnc. apply d_sum_free. now apply in_map.
Qed.

End LetterSums.

(** When no retained key contains "_sum", the frame the encoder returns
    for a track holds the per-letter sums followed by their total. *)
Lemma encode_kept_shape (suffix total : string) (keys kept : list string) :
  PyStr.contains "_sum" suffix = true ->
  (forall letter, String letter suffix <> total) ->
  (forall nm, In nm kept -> In nm keys) ->
  sum_free kept ->
  encode_kept suffix total keys kept
  = letter_columns suffix keys kept
    ++ [(total, sum_axis1 (List.length keys)
                  (map snd (letter_columns suffix keys kept)))].
Proof.
  intros Hsuf Htot Hin Hfree. unfold encode_kept.
  rewrite select_get_dummies by assumption.
  set (d := map (fun nm => (nm, indicator nm keys)) kept).
  assert (Hd : map fst d = kept).
  { unfold d. rewrite map_map. apply map_id. }
  assert (Hfree' : sum_free (map fst d)) by now rewrite Hd.
  unfold unique_starting_letters. rewrite Hd.
  rewrite (letter_sums_shape suffix _ d Hsuf Hfree')
    by (apply distinct_NoDup, Ascii.eqb_eq).
  rewrite (summed_shape suffix _ d Hsuf Hfree' total _ Htot).
  assert (Hcols : map (fun letter =>
             (String letter suffix,
              sum_axis1 (List.length keys)
                (map snd (filter (fun nc => PyStr.startswith (fst nc)
                                              (String letter EmptyString)) d))))
            (distinct Ascii.eqb (first_chars kept))
          = letter_columns suffix keys kept).
  { unfold letter_columns, letter_column. apply map_ext. intros letter.
    unfold d.
    now rewrite (filter_tabulate (fun nm => indicator nm keys)
                   (fun nm => PyStr.startswith nm (String letter EmptyString))). }
  now rewrite Hcols.
Qed.

(* ----------------------------------------------------------------- *)
(** ** The encoded row of one record *)

Lemma sum_axis1_length (n : nat) (cols : list column) :
  List.length (sum_axis1 n cols) = n.
Proof. unfold sum_axis1. now rewrite length_map, length_seq. Qed.

Lemma sum_axis1_nth (n i : nat) (cols : list column) :
  i < n ->
  nth i (sum_axis1 n cols) 0%Z
  = fold_right Z.add 0%Z (map (fun c => nth i c 0%Z) cols).
Proof.
  intros H. unfold sum_axis1. apply nth_error_nth.
  rewrite nth_error_map, nth_error_nth' with (d := 0) by now rewrite length_seq.
  simpl. now rewrite seq_nth.
Qed.

(** A sum of 0/1 hits over a duplicate-free list is 1 or 0. *)
Lemma sum_hits {A : Type} (eqb : A -> A -> bool)
  (eqb_spec : forall x y, eqb x y = true <-> x = y) (a : A) (l : list A) :
  NoDup l ->
  fold_right Z.add 0%Z (map (fun x => if eqb a x then 1%Z else 0%Z) l)
  = if existsb (eqb a) l then 1%Z else 0%Z.
Proof.
  induction 1 as [|x l Hx Hnd IH]; simpl; [reflexivity|].
  rewrite IH. destruct (eqb a x) eqn:E; simpl; [|reflexivity].
  apply eqb_spec in E. subst x.
  replace (existsb (eqb a) l) with false; [reflexivity|].
  symmetry. apply not_true_is_false. intros H.
  apply existsb_exists in H as (y & Hy & E). apply eqb_spec in E. now subst.
Qed.

Lemma existsb_eqb_In (k : string) (l : list string) :
  existsb (String.eqb k) l = true <-> In k l.
Proof.
  rewrite existsb_exists. split.
  - intros (x & Hx & E). apply String.eqb_eq in E. now subst.
  - intros H. exists k. now rewrite String.eqb_refl.
Qed.

Lemma existsb_filter_eqb (k : string) (p : string -> bool) (l : list string) :
  existsb (String.eqb k) (filter p l) = existsb (String.eqb k) l && p k.
Proof.
  induction l as [|a l IH]; simpl; [reflexivity|].
  destruct (p a) eqn:Ea; simpl; rewrite IH.
  - destruct (String.eqb_spec k a); simpl; [subst; now rewrite Ea | reflexivity].
  - destruct (String.eqb_spec k a); simpl; [subst; rewrite Ea | reflexivity].
    now rewrite andb_false_r.
Qed.

Lemma indicator_row_sum (keys names : list string) (i : nat) (k : string) :
  NoDup names -> nth_error keys i = Some k ->
  fold_right Z.add 0%Z
    (map (fun c => nth i c 0%Z) (map (fun nm => indicator nm keys) names))
  = if existsb (String.eqb k) names then 1%Z else 0%Z.
Proof.
  intros Hnd Hi. rewrite map_map.
  rewrite <- (sum_hits String.eqb String.eqb_eq k names Hnd).
  f_equal. apply map_ext. intros nm. now apply indicator_nth.
Qed.

(** The per-letter sum of a record is 1 when its key is retained and
    starts with the letter, and 0 otherwise. *)
Lemma letter_column_row (keys kept : list string) (letter : ascii)
  (i : nat) (k : string) :
  NoDup kept -> nth_error keys i = Some k ->
  nth i (letter_column keys kept letter) 0%Z
  = if existsb (String.eqb k) kept
       && PyStr.startswith k (String letter EmptyString)
    then 1%Z else 0%Z.
Proof.
  intros Hnd Hi. unfold letter_column.
  rewrite sum_axis1_nth by (apply nth_error_Some; congruence).
  rewrite (indicator_row_sum keys _ i k) by (try apply NoDup_filter; assumption).
  now rewrite existsb_filter_eqb.
Qed.

Lemma first_chars_In (names : list string) (c : ascii) (r : string) :
  In (String c r) names -> In c (first_chars names).
Proof.
  intros H. unfold first_chars. apply in_flat_map.
  exists (String c r). simpl. auto.
Qed.

Lemma letter_columns_row_sum (suffix : string) (keys kept : list string)
  (i : nat) (k : string) :
  NoDup kept -> ~ In "" kept -> nth_error keys i = Some k ->
  fold_right Z.add 0%Z
    (map (fun c => nth i c 0%Z) (map snd (letter_columns suffix keys kept)))
  = if existsb (String.eqb k) kept then 1%Z else 0%Z.
Proof.
  intros Hnd Hne Hi. unfold letter_columns. rewrite !map_map. cbn [snd].
  rewrite (map_ext _ (fun letter =>
             if existsb (String.eqb k) kept
                && PyStr.startswith k (String letter EmptyString)
             then 1%Z else 0%Z))
    by (intros letter; now apply letter_column_row).
  destruct (existsb (String.eqb k) kept) eqn:Ek; simpl.
  - apply existsb_eqb_In in Ek. destruct k as [|c r]; [contradiction|].
    rewrite (map_ext _ (fun letter => if Ascii.eqb c letter then 1%Z else 0%Z))
      by (intros letter; now rewrite andb_true_r).
    rewrite (sum_hits Ascii.eqb Ascii.eqb_eq c)
      by (apply distinct_NoDup, Ascii.eqb_eq).
    replace (existsb (Ascii.eqb c) (distinct Ascii.eqb (first_chars kept)))
      with true; [reflexivity|].
    symmetry. apply existsb_exists. exists c. rewrite Ascii.eqb_refl.
    split; [|reflexivity].
    apply distinct_In; [apply Ascii.eqb_eq|]. eapply first_chars_In; eauto.
  - induction (distinct Ascii.eqb (first_chars kept)) as [|x l IH];
      simpl; [reflexivity | now rewrite IH].
Qed.

Lemma dict_get_app {V : Type} (d1 d2 : list (string * V)) (k : string) :
  dict_get (d1 ++ d2) k
  = match dict_get d1 k with
    | Some v => Some v
    | None => dict_get d2 k
    end.
Proof.
  induction d1 as [|[k0 v0] r IH]; simpl; [reflexivity|].
  now destruct (String.eqb k0 k).
Qed.

Lemma letter_columns_get (suffix : string) (keys kept : list string)
  (letter : ascii) :
  In letter (first_chars kept) ->
  dict_get (letter_columns suffix keys kept) (String letter suffix)
  = Some (letter_column keys kept letter).
Proof.
  intros H. unfold letter_columns.
  assert (Hin : In letter (distinct Ascii.eqb (first_chars kept))).
  { apply distinct_In; [apply Ascii.eqb_eq | exact H]. }
  induction (distinct Ascii.eqb (first_chars kept)) as [|x l IH];
    simpl; [contradiction|].
  destruct (Ascii.eqb_spec x letter) as [->|Hx].
  - now rewrite String.eqb_refl.
  - destruct (String.eqb_spec (String x suffix) (String letter suffix)) as [E|_].
    + injection E as ->. contradiction.
    + apply IH. destruct Hin; [contradiction | assumption].
Qed.

Lemma letter_columns_total_absent (suffix total : string)
  (keys kept : list string) :
  (forall letter, String letter suffix <> total) ->
  dict_get (letter_columns suffix keys kept) total = None.
Proof.
  intros H. unfold letter_columns.
  induction (distinct Ascii.eqb (first_chars kept)) as [|x l IH];
    cbn [map dict_get]; [reflexivity|].
  destruct (String.eqb_spec (String x suffix) total) as [E|_];
    [now apply H in E | exact IH].
Qed.

Lemma column_of_letter (suffix total : string) (keys kept : list string)
  (letter : ascii) :
  PyStr.contains "_sum" suffix = true ->
  (forall l, String l suffix <> total) ->
  (forall nm, In nm kept -> In nm keys) ->
  sum_free kept ->
  In letter (first_chars kept) ->
  column_of (encode_kept suffix total keys kept) (String letter suffix)
  = letter_column keys kept letter.
Proof.
  intros Hsuf Htot Hin Hfree Hl. unfold column_of.
  rewrite encode_kept_shape, dict_get_app, letter_columns_get by assumption.
  reflexivity.
Qed.

Lemma column_of_total (suffix total : string) (keys kept : list string) :
  PyStr.contains "_sum" suffix = true ->
  (forall l, String l suffix <> total) ->
  (forall nm, In nm kept -> In nm keys) ->
  sum_free kept ->
  column_of (encode_kept suffix total keys kept) total
  = sum_axis1 (List.length keys) (map snd (letter_columns suffix keys kept)).
Proof.
  intros Hsuf Htot Hin Hfree. unfold column_of.
  rewrite encode_kept_shape, dict_get_app, letter_columns_total_absent
    by assumption.
  simpl. now rewrite String.eqb_refl.
Qed.

Lemma kept_of_keys (keys : list string) :
  let kept := filter retained (map fst (get_dummies keys)) in
  NoDup kept
  /\ ~ In "" kept
  /\ (forall nm, In nm kept <-> In nm keys /\ retained nm = true).
Proof.
  cbv zeta. split; [apply NoDup_filter, get_dummies_names_NoDup|]. split.
  - rewrite filter_In. intros [_ H]. discriminate.
  - intros nm. now rewrite filter_In, get_dummies_names_In.
Qed.

(** Under the proviso that no key of the encoded column contains "_sum"
    (and none is empty, so that the encoder returns): the row of a record
    holds 1 in the total column when its key is retained and 0 otherwise, 1
    in the per-letter sum of the first letter of a retained key and 0 in
    every other per-letter sum, and its total is the sum of its per-letter
    sums. *)
Lemma encoder_row (suffix total : string) (keys : list string)
  (i : nat) (k : string) :
  PyStr.contains "_sum" suffix = true ->
  (forall l, String l suffix <> total) ->
  sum_free keys ->
  nth_error keys i = Some k ->
  let kept := filter retained (map fst (get_dummies keys)) in
  let enc := encode_kept suffix total keys kept in
  nth i (column_of enc total) 0%Z = (if retained k then 1%Z else 0%Z)
  /\ (forall letter, In letter (first_chars kept) ->
        nth i (column_of enc (String letter suffix)) 0%Z
        = if retained k && PyStr.startswith k (String letter EmptyString)
          then 1%Z else 0%Z)
  /\ nth i (column_of enc total) 0%Z
     = fold_right Z.add 0%Z
         (map (fun letter => nth i (column_of enc (String letter suffix)) 0%Z)
              (distinct Ascii.eqb (first_chars kept))).
Proof.
  intros Hsuf Htot Hfree Hi kept enc.
  destruct (kept_of_keys keys) as (Hnd & Hne & Hkept). fold kept in Hnd, Hne, Hkept.
  assert (Hin : forall nm, In nm kept -> In nm keys) by (intros nm H; now apply Hkept).
  assert (Hfree' : sum_free kept) by (intros nm H; apply Hfree; auto).
  assert (Hk : existsb (String.eqb k) kept = retained k).
  { destruct (retained k) eqn:Er.
    - apply existsb_eqb_In, Hkept. split; [eapply nth_error_In; eauto | exact Er].
    - apply not_true_is_false. intros H. apply existsb_eqb_In, Hkept in H.
      destruct H. congruence. }
  assert (Hlt : i < List.length keys) by (apply nth_error_Some; congruence).
  assert (Htotal : nth i (column_of enc total) 0%Z = (if retained k then 1%Z else 0%Z)).
  { unfold enc. rewrite column_of_total, sum_axis1_nth by assumption.
    now rewrite (letter_columns_row_sum suffix keys kept i k), Hk. }
  split; [exact Htotal|]. split.
  - intros letter Hl. unfold enc.
    rewrite column_of_letter by assumption.
    now rewrite (letter_column_row keys kept letter i k), Hk.
  - unfold enc at 1. rewrite column_of_total, sum_axis1_nth by assumption.
    unfold letter_columns. rewrite !map_map. cbn [snd].
    f_equal. apply map_ext_in. intros letter Hl. unfold enc.
    rewrite column_of_letter; auto.
    apply (proj1 (distinct_In Ascii.eqb Ascii.eqb_eq _ _)) in Hl. exact Hl.
Qed.

(* ----------------------------------------------------------------- *)
(** ** What the encoder is given *)

Lemma single_char_sum_free (kept : list string) :
  (forall nm, In nm kept -> String.length nm = 1) -> sum_free kept.
Proof.
  intros H nm Hnm. specialize (H nm Hnm).
  destruct nm as [|c [|c' r]]; try discriminate.
  simpl. now rewrite andb_false_r.
Qed.

Lemma letter_column_identity (keys kept : list string) (c : ascii) :
  NoDup kept ->
  (forall nm, In nm kept -> String.length nm = 1) ->
  In (String c EmptyString) kept ->
  letter_column keys kept c = indicator (String c EmptyString) keys.
Proof.
  intros Hnd Hlen Hc.
  apply nth_ext with (d := 0%Z) (d' := 0%Z).
  - unfold letter_column. now rewrite sum_axis1_length, indicator_length.
  - unfold letter_column at 1. rewrite sum_axis1_length. intros i Hi.
    destruct (nth_error keys i) as [k|] eqn:Ek;
      [|apply nth_error_None in Ek; lia].
    rewrite (letter_column_row keys kept c i k Hnd Ek).
    rewrite (indicator_nth _ keys i k Ek).
    destruct (existsb (String.eqb k) kept) eqn:Ex; simpl.
    + apply existsb_eqb_In in Ex. specialize (Hlen k Ex).
      destruct k as [|d [|d' r]]; try discriminate.
      simpl. rewrite andb_true_r.
      destruct (Ascii.eqb d c); reflexivity.
    + destruct (String.eqb_spec k (String c EmptyString)) as [->|_];
        [|reflexivity].
      apply existsb_eqb_In in Hc. congruence.
Qed.

(** On the Y track: once the resolver has performed a
    round, the column the encoder reads is the resolver's output; the
    indicator columns the encoder retains are exactly the keys of that
    column that do not start with 'n' and start with a letter; when the
    resolver stopped with nothing pending, each retained key has length 1
    and its per-letter sum column is its own indicator column.  (At the
    50-round bound longer keys can be retained; they are grouped by first
    letter.) *)
Lemma y_encoder_input (hier xref second : pydict) (raw kept : list string) :
  let st := findYBasalHaplogroups hier xref second raw in
  cols_to_keep (map fst (get_dummies (y_column st))) = Some kept ->
  (1 <= y_loop st -> y_column st = y_haplo_data st)
  /\ (forall key, In key kept <->
        In key (y_column st)
        /\ exists c r, key = String c r /\ c <> "n"%char /\ PyStr.isalpha c = true)
  /\ (1 <= y_loop st -> converged na_female (y_haplo_data st) ->
      forall key, In key kept ->
        exists c, key = String c EmptyString
          /\ column_of (encode_kept "_y_sum" "y_haplos_sum" (y_column st) kept)
               (String c "_y_sum")
             = indicator key (y_column st)).
Proof.
  intros st Hkept.
  apply cols_to_keep_Some in Hkept as [_ ->].
  destruct (kept_of_keys (y_column st)) as (Hnd & Hne & Hk).
  destruct (findY_spec hier xref second raw) as (_ & _ & _ & _ & Hcol).
  fold st in Hcol.
  assert (Hwritten : 1 <= y_loop st -> y_column st = y_haplo_data st).
  { intros H. rewrite Hcol. destruct (Nat.eqb_spec (y_loop st) 0); [lia | reflexivity]. }
  split; [exact Hwritten|]. split.
  - intros key. rewrite Hk, retained_spec. reflexivity.
  - intros Hran Hconv key Hkey.
    set (kept := filter retained (map fst (get_dummies (y_column st)))) in *.
    assert (Hlen : forall nm, In nm kept -> String.length nm = 1).
    { intros nm Hnm. apply Hk in Hnm as [Hin Hret].
      rewrite (Hwritten Hran) in Hin.
      unfold converged in Hconv. rewrite Forall_forall in Hconv.
      apply retained_spec in Hret as (c & r & -> & Hc & _).
      destruct (Hconv _ Hin) as [H|H].
      - simpl in *. destruct r; [reflexivity | simpl in H; lia].
      - injection H as -> _. now elim Hc. }
    pose proof (Hlen key Hkey) as Hone.
    destruct key as [|c [|c' r]]; try discriminate.
    exists c. split; [reflexivity|].
    rewrite column_of_letter.
    + now apply letter_column_identity.
    + reflexivity.
    + intros l. discriminate.
    + intros nm Hnm. now apply Hk.
    + now apply single_char_sum_free.
    + eapply first_chars_In; eauto.
Qed.

(** A key that maps to itself in the hierarchy table is still two
    characters long after the 50 rounds and is retained by the encoder; the
    per-letter sum then adds two indicator columns. *)
Example long_key_survives_the_bound :
  let st := findYBasalHaplogroups [("AB", "AB"); ("AC", "AC")] [] [] ["AB"; "AC"] in
  y_loop st = 50
  /\ y_column st = y_haplo_data st
  /\ cols_to_keep (map fst (get_dummies (y_column st))) = Some ["AB"; "AC"]
  /\ String.length "AB" = 2
  /\ indicator "AB" (y_column st) = [1%Z; 0%Z]
  /\ column_of (encode_kept "_y_sum" "y_haplos_sum" (y_column st) ["AB"; "AC"])
       "A_y_sum" = [1%Z; 1%Z].
Proof. vm_compute. repeat split; reflexivity. Qed.

(** C1: evaluation at the failing input.  The mitochondrial resolver
    stores the resolved keys in the new column 'Updated mtDNA haplogroup'
    and the encoder is given the column the resolver read from: the label
    "HV1" resolves to "R", yet the indicator column of the record is named
    by the raw string "HV1", which has three characters, and both tables
    count the record under 'H', with no column for 'R'. *)
Theorem C1_mt_encoder_reads_raw_column :
  let mt_basal := [("HV1", "HV"); ("HV", "R")] in
  let df := [mk_sample "I0001" (Some 10%Z) (Some 20%Z) (Some 500%Z)
               (Some "Sweden") "R" "HV1"] in
  let mt := findMTBasalHaplogroups mt_basal [] (map mt_haplogroup df) in
  mt_updated mt = ["R"]
  /\ mt_published mt = ["HV1"]
  /\ map fst (get_dummies (mt_published mt)) = ["HV1"]
  /\ cols_to_keep (map fst (get_dummies (mt_published mt))) = Some ["HV1"]
  /\ engine mt_basal [] [] [] [] 1000 df
     = Some ([mk_bin_row "Sweden (0-999BP)"
                [("R_y_sum", Some 1%Z); ("y_haplos_sum", Some 1%Z);
                 ("H_mt_sum", Some 1%Z); ("mt_haplos_sum", Some 1%Z)]],
             [mk_site_row 10 20 "Sweden (0-999BP)" (Some "I0001")
                [("R_y_sum", 1%Z); ("y_haplos_sum", 1%Z);
                 ("H_mt_sum", 1%Z); ("mt_haplos_sum", 1%Z)]]).
Proof. vm_compute. repeat split; reflexivity. Qed.

(* ----------------------------------------------------------------- *)
(** ** Binning *)

(** A record without a usable age still gets a bin key, built from the
    text "nan", as long as it has a political entity; a record without a
    political entity gets none. *)
Lemma create_bins_key (bin_choice : Z) (df : list sample) (binned_df : list binned) :
  create_bins bin_choice df = Some binned_df ->
  List.length binned_df = List.length df
  /\ forall b, In b binned_df ->
       In (b_sample b) df
       /\ (political_entity (b_sample b) = None -> CombinedBins b = None)
       /\ (forall e, political_entity (b_sample b) = Some e ->
             date_mean (b_sample b) = None ->
             CombinedBins b = Some (e ++ " (nanBP)")%string).
Proof.
  unfold create_bins. destruct (bin_choice <=? 0)%Z; [discriminate|].
  destruct (entity_all_missing df); [discriminate|].
  intros [= <-]. split; [apply length_map|].
  intros b Hb. apply in_map_iff in Hb as (r & <- & Hr). cbn.
  split; [exact Hr|]. split.
  - now intros ->.
  - now intros e -> ->.
Qed.

(* ----------------------------------------------------------------- *)
(** ** Group sums *)

Lemma nansum_app (l1 l2 : list cell) :
  nansum (l1 ++ l2) = (nansum l1 + nansum l2)%Z.
Proof.
  induction l1 as [|[z|] l1 IH]; simpl; rewrite ?IH; lia.
Qed.

Lemma column_sum_cons (nm : string) (r : row) (rows : list row) :
  column_sum nm (r :: rows) = (nz (get_cell r nm) + column_sum nm rows)%Z.
Proof. unfold column_sum. simpl. now destruct (get_cell r nm). Qed.

Lemma column_sum_split (nm : string) (p q : row -> bool) (rows : list row) :
  column_sum nm (filter p rows)
  = (column_sum nm (filter (fun r => p r && q r) rows)
     + column_sum nm (filter (fun r => p r && negb (q r)) rows))%Z.
Proof.
  induction rows as [|r rows IH]; simpl; [reflexivity|].
  destruct (p r), (q r); simpl; rewrite ?column_sum_cons, IH; lia.
Qed.

Lemma site_key_eqb_spec (k1 k2 : Z * Z * string) :
  site_key_eqb k1 k2 = true <-> k1 = k2.
Proof.
  destruct k1 as [[a1 o1] b1], k2 as [[a2 o2] b2]. simpl.
  rewrite !andb_true_iff, !Z.eqb_eq, String.eqb_eq.
  split; [intros [[-> ->] ->]; reflexivity | intros [= -> -> ->]; auto].
Qed.

Lemma site_key_eqb_sym (k1 k2 : Z * Z * string) :
  site_key_eqb k1 k2 = site_key_eqb k2 k1.
Proof.
  destruct (site_key_eqb k1 k2) eqn:E1, (site_key_eqb k2 k1) eqn:E2;
    try reflexivity.
  - apply site_key_eqb_spec in E1. subst.
    assert (site_key_eqb k2 k2 = true) by now apply site_key_eqb_spec.
    congruence.
  - apply site_key_eqb_spec in E2. subst.
    assert (site_key_eqb k1 k1 = true) by now apply site_key_eqb_spec.
    congruence.
Qed.

Lemma column_sum_disjoint (nm : string) (p q : row -> bool) (rows : list row) :
  (forall r, p r && q r = false) ->
  column_sum nm (filter (fun r => p r || q r) rows)
  = (column_sum nm (filter p rows) + column_sum nm (filter q rows))%Z.
Proof.
  intros H. induction rows as [|r rows IH]; simpl; [reflexivity|].
  specialize (H r).
  destruct (p r), (q r); simpl in *; try discriminate;
    rewrite ?column_sum_cons, IH; lia.
Qed.

(** Summing group by group over distinct keys is summing once over the
    rows whose key is among them. *)
Lemma column_sum_groups (nm : string) (rows : list row)
  (ks : list (Z * Z * string)) :
  NoDup ks ->
  fold_right Z.add 0%Z
    (map (fun k => column_sum nm (filter (in_site k) rows)) ks)
  = column_sum nm (filter (key_among ks) rows).
Proof.
  induction 1 as [|k ks Hk Hnd IH]; simpl.
  - rewrite (filter_none _ rows); [reflexivity|].
    intros r _. unfold key_among. now destruct (site_key r).
  - rewrite IH.
    rewrite <- column_sum_disjoint.
    + f_equal. apply filter_ext. intros r. unfold key_among, in_site.
      destruct (site_key r) as [k'|]; [|reflexivity].
      simpl. now rewrite site_key_eqb_sym.
    + intros r. unfold key_among, in_site.
      destruct (site_key r) as [k'|]; [|reflexivity].
      destruct (site_key_eqb k k') eqn:E; [|reflexivity].
      apply site_key_eqb_spec in E. subst k'. simpl.
      apply not_true_is_false. intros H.
      apply existsb_exists in H as (y & Hy & E).
      apply site_key_eqb_spec in E. now subst.
Qed.

Lemma filter_map_swap {A B : Type} (f : A -> B) (p : B -> bool) (l : list A) :
  filter p (map f l) = map f (filter (fun x => p (f x)) l).
Proof.
  induction l as [|a l IH]; simpl; [reflexivity|].
  destruct (p (f a)); simpl; now rewrite IH.
Qed.

Lemma agg_columns_incl (combined_df : frame) (nm : string) :
  In nm (agg_columns combined_df) -> In nm (f_cols combined_df).
Proof. unfold agg_columns. rewrite filter_In. tauto. Qed.

Lemma site_keys_In (combined_df : frame) (k : Z * Z * string) :
  In k (site_keys combined_df)
  <-> exists r, In r (f_rows combined_df) /\ site_key r = Some k.
Proof.
  unfold site_keys.
  rewrite isort_In, (distinct_In _ site_key_eqb_spec), in_flat_map.
  split; intros (r & Hr & H); exists r; (split; [exact Hr|]).
  - destruct (site_key r); simpl in H; [|contradiction].
    destruct H; [now subst | contradiction].
  - rewrite H. now left.
Qed.

Lemma site_keys_NoDup (combined_df : frame) : NoDup (site_keys combined_df).
Proof. apply isort_NoDup, distinct_NoDup, site_key_eqb_spec. Qed.

(** The sum of a column over the site-level rows of a bin is its sum over
    the records of that bin that have both coordinates. *)
Lemma site_total_located (combined_df : frame) (b nm : string) :
  In nm (f_cols combined_df) ->
  site_total (site_groups combined_df) b nm
  = column_sum nm
      (filter (fun r => in_bin b r && negb (unlocated b r)) (f_rows combined_df)).
Proof.
  intros Hnm. unfold site_total, site_groups.
  rewrite filter_map_swap, map_map.
  set (ks := filter _ (site_keys combined_df)).
  rewrite (map_ext _ (fun k => column_sum nm (filter (in_site k) (f_rows combined_df)))).
  - rewrite column_sum_groups
      by (apply NoDup_filter, site_keys_NoDup).
    f_equal. apply filter_ext_in. intros r Hr.
    unfold key_among, unlocated, in_bin, site_key.
    destruct (r_lat r) as [a|] eqn:Ea, (r_long r) as [o|] eqn:Eo,
             (r_bins r) as [b'|] eqn:Eb; simpl;
      rewrite ?andb_false_r, ?andb_true_r; try reflexivity;
      try (now destruct (String.eqb b b')).
    destruct (String.eqb b b') eqn:E.
    + apply existsb_exists. exists (a, o, b'). split.
      * apply filter_In. split.
        -- apply site_keys_In. exists r. split; [exact Hr|].
           unfold site_key. now rewrite Ea, Eo, Eb.
        -- simpl. exact E.
      * now apply site_key_eqb_spec.
    + apply not_true_is_false. intros H.
      apply existsb_exists in H as (k & Hk & Hkk).
      apply site_key_eqb_spec in Hkk. subst k.
      apply filter_In in Hk as [_ Hk]. simpl in Hk. congruence.
  - intros [[a o] b']. unfold site_value. simpl.
    now rewrite (dict_get_tabulate
                   (fun nm => custom_aggregate_numeric
                      (map (fun r => get_cell r nm)
                           (filter (in_site (a, o, b')) (f_rows combined_df))))).
Qed.

Lemma bin_level_In (combined_df : frame) (b : string)
  (vals : list (string * Z)) :
  In (b, vals) (bin_level combined_df) ->
  (exists r, In r (f_rows combined_df) /\ r_bins r = Some b)
  /\ vals = map (fun nm => (nm, column_sum nm (filter (in_bin b) (f_rows combined_df))))
                (agg_columns combined_df).
Proof.
  unfold bin_level, bin_keys.
  intros H. apply in_map_iff in H as (b' & [= <- <-] & Hb).
  split; [|reflexivity].
  apply isort_In, (distinct_In _ String.eqb_eq), in_flat_map in Hb
    as (r & Hr & Hb).
  exists r. split; [exact Hr|].
  destruct (r_bins r); simpl in Hb; [|contradiction].
  destruct Hb; [now subst | contradiction].
Qed.

(** The bin-level value of a summed column is the sum of that column over
    the site-level rows of the bin plus its sum over the records of the bin
    that have no latitude or no longitude. *)
Lemma bin_level_accounting (combined_df : frame) (b nm : string)
  (vals : list (string * Z)) :
  In (b, vals) (bin_level combined_df) ->
  In nm (agg_columns combined_df) ->
  dict_get vals nm
  = Some (site_total (site_groups combined_df) b nm
          + column_sum nm (filter (unlocated b) (f_rows combined_df)))%Z.
Proof.
  intros Hb Hnm. apply bin_level_In in Hb as [_ ->].
  rewrite (dict_get_tabulate
             (fun nm => column_sum nm (filter (in_bin b) (f_rows combined_df))))
    by assumption.
  rewrite site_total_located by now apply agg_columns_incl.
  rewrite (column_sum_split nm (in_bin b) (fun r => negb (unlocated b r))).
  f_equal. f_equal. f_equal. apply filter_ext. intros r.
  unfold unlocated. rewrite negb_involutive.
  destruct (in_bin b r); reflexivity.
Qed.

(* ----------------------------------------------------------------- *)
(** ** [createTable] *)

Lemma coerce_column_unchanged (nm : string) (cols : list string)
  (rows : list (string * list (string * cell))) :
  coerce_column nm cols rows
  = if existsb (String.eqb nm) cols then Some rows else None.
Proof.
  unfold coerce_column. destruct (existsb (String.eqb nm) cols); [|reflexivity].
  f_equal. rewrite <- (map_id rows) at 2. apply map_ext. intros [b vals].
  simpl. f_equal. rewrite <- (map_id vals) at 2. apply map_ext.
  intros [nm' [z|]]; simpl; now destruct (String.eqb nm' nm).
Qed.

Lemma dict_get_map_values {V W : Type} (f : V -> W) (d : list (string * V))
  (k : string) :
  dict_get (map (fun nc => (fst nc, f (snd nc))) d) k
  = option_map f (dict_get d k).
Proof.
  induction d as [|[k0 v0] r IH]; simpl; [reflexivity|].
  now destruct (String.eqb k0 k).
Qed.

(** [createTable] raises exactly when the site-level grouping has no
    group or one of the two total columns is missing; otherwise the
    coercion leaves the group sums as they are. *)
Lemma createTable_eq (combined_df : frame) :
  createTable combined_df
  = match site_keys combined_df with
    | [] => None
    | _ :: _ =>
        if existsb (String.eqb "y_haplos_sum") (agg_columns combined_df)
           && existsb (String.eqb "mt_haplos_sum") (agg_columns combined_df)
        then Some (map (fun br => mk_bin_row (fst br)
                                    (map (fun nc => (fst nc, Some (snd nc))) (snd br)))
                       (bin_level combined_df),
                   site_groups combined_df)
        else None
    end.
Proof.
  unfold createTable, site_level.
  destruct (site_keys combined_df) as [|k ks]; [reflexivity|].
  cbn [bind]. rewrite coerce_column_unchanged.
  destruct (existsb (String.eqb "y_haplos_sum") (agg_columns combined_df));
    [|reflexivity].
  cbn [bind andb]. rewrite coerce_column_unchanged.
  destruct (existsb (String.eqb "mt_haplos_sum") (agg_columns combined_df));
    [|reflexivity].
  cbn [bind]. now rewrite map_map.
Qed.

Lemma createTable_Some (combined_df : frame) (nations : list bin_row)
  (sites : list site_row) :
  createTable combined_df = Some (nations, sites) ->
  In "y_haplos_sum" (agg_columns combined_df)
  /\ In "mt_haplos_sum" (agg_columns combined_df)
  /\ sites = site_groups combined_df
  /\ forall bn, In bn nations ->
       exists vals, In (n_bins bn, vals) (bin_level combined_df)
                    /\ forall nm, bin_value bn nm = dict_get vals nm.
Proof.
  rewrite createTable_eq.
  destruct (site_keys combined_df) as [|k ks]; [discriminate|].
  destruct (existsb (String.eqb "y_haplos_sum") (agg_columns combined_df)) eqn:E1;
    [|discriminate].
  destruct (existsb (String.eqb "mt_haplos_sum") (agg_columns combined_df)) eqn:E2;
    [|discriminate].
  cbn [andb]. intros [= <- <-].
  apply existsb_eqb_In in E1, E2. repeat split; auto.
  intros bn Hbn. apply in_map_iff in Hbn as ([b vals] & <- & Hin).
  exists vals. split; [exact Hin|]. intros nm. unfold bin_value. cbn [n_vals fst snd].
  rewrite (dict_get_map_values (@Some Z)). now destruct (dict_get vals nm).
Qed.

(** Conservation between the two levels, with its exact remainder: a
    bin-level sum is the sum of the site-level rows of that bin plus the
    records of the bin that the site level drops for want of a
    coordinate. *)
Lemma conservation_up_to_unlocated (combined_df : frame)
  (nations : list bin_row) (sites : list site_row) (bn : bin_row) (nm : string) :
  createTable combined_df = Some (nations, sites) ->
  In bn nations -> In nm (agg_columns combined_df) ->
  bin_value bn nm
  = Some (site_total sites (n_bins bn) nm
          + column_sum nm (filter (unlocated (n_bins bn)) (f_rows combined_df)))%Z.
Proof.
  intros Hct Hbn Hnm.
  apply createTable_Some in Hct as (_ & _ & -> & Hrows).
  destruct (Hrows bn Hbn) as (vals & Hin & Hval).
  now rewrite Hval, (bin_level_accounting combined_df _ nm vals Hin Hnm).
Qed.

(** When every record that has a bin key has both coordinates, the
    bin-level sum is the sum of the site-level rows of the bin. *)
Lemma conservation_when_located (combined_df : frame)
  (nations : list bin_row) (sites : list site_row) (bn : bin_row) (nm : string) :
  (forall r, In r (f_rows combined_df) -> r_bins r <> None ->
             r_lat r <> None /\ r_long r <> None) ->
  createTable combined_df = Some (nations, sites) ->
  In bn nations -> In nm (agg_columns combined_df) ->
  bin_value bn nm = Some (site_total sites (n_bins bn) nm).
Proof.
  intros Hloc Hct Hbn Hnm.
  rewrite (conservation_up_to_unlocated _ _ _ _ _ Hct Hbn Hnm).
  rewrite (filter_none _ (f_rows combined_df)).
  - unfold column_sum. simpl. f_equal. lia.
  - intros r Hr. unfold unlocated, in_bin, site_key.
    specialize (Hloc r Hr).
    destruct (r_bins r) as [b|]; [|reflexivity].
    destruct Hloc as [Ha Ho]; [discriminate|].
    destruct (r_lat r), (r_long r); try congruence.
    apply andb_false_r.
Qed.

(** Every record that has a bin key is in a row of the bin-level table,
    and in a row of the site-level table when it has both coordinates. *)
Lemma keyed_record_is_aggregated (combined_df : frame) (r : row) (b : string) :
  In r (f_rows combined_df) -> r_bins r = Some b ->
  (exists vals, In (b, vals) (bin_level combined_df))
  /\ (forall a o, r_lat r = Some a -> r_long r = Some o ->
        exists s, In s (site_groups combined_df)
                  /\ s_lat s = a /\ s_long s = o /\ s_bins s = b).
Proof.
  intros Hr Hb. split.
  - eexists. unfold bin_level. apply in_map_iff. exists b. split; [reflexivity|].
    unfold bin_keys. apply isort_In, (distinct_In _ String.eqb_eq), in_flat_map.
    exists r. split; [exact Hr|]. rewrite Hb. now left.
  - intros a o Ha Ho. unfold site_groups.
    eexists. split.
    + apply in_map_iff. exists (a, o, b). split; [reflexivity|].
      apply site_keys_In. exists r. split; [exact Hr|].
      unfold site_key. now rewrite Ha, Ho, Hb.
    + cbn. auto.
Qed.

(** C4: evaluation at the failing input.  Of two records of the same
    bin, the second has no latitude (text that is not a number, coerced to
    NaN by [open_data] after the rows without coordinates have been
    dropped).  The bin level counts both records, the site level only the
    first: the bin-level totals are 2, the site-level rows of the bin sum
    to 1. *)
Theorem C4_unlocated_record :
  let df := [mk_sample "I0001" (Some 10%Z) (Some 20%Z) (Some 500%Z)
               (Some "Sweden") "R" "H";
             mk_sample "I0002" None (Some 20%Z) (Some 600%Z)
               (Some "Sweden") "R" "H"] in
  let sites := [mk_site_row 10 20 "Sweden (0-999BP)" (Some "I0001")
                  [("R_y_sum", 1%Z); ("y_haplos_sum", 1%Z);
                   ("H_mt_sum", 1%Z); ("mt_haplos_sum", 1%Z)]] in
  engine [] [] [] [] [] 1000 df
  = Some ([mk_bin_row "Sweden (0-999BP)"
             [("R_y_sum", Some 2%Z); ("y_haplos_sum", Some 2%Z);
              ("H_mt_sum", Some 2%Z); ("mt_haplos_sum", Some 2%Z)]],
          sites)
  /\ site_total sites "Sweden (0-999BP)" "R_y_sum" = 1%Z
  /\ site_total sites "Sweden (0-999BP)" "y_haplos_sum" = 1%Z
  /\ site_total sites "Sweden (0-999BP)" "mt_haplos_sum" = 1%Z.
Proof. vm_compute. repeat split; reflexivity. Qed.

(** When no record has both coordinates and a bin key the site-level
    grouping has no group and [createTable] raises. *)
Example no_located_record_raises :
  engine [] [] [] [] [] 1000
    [mk_sample "I0001" None (Some 20%Z) (Some 500%Z) (Some "Sweden") "R" "H"]
  = None.
Proof. vm_compute. reflexivity. Qed.

(** C3: evaluation at the failing input.  A record whose age is not a
    number gets the bin key "Sweden (nanBP)" and is present, under that key,
    in the bin-level table and in the site-level table. *)
Theorem C3_unresolved_age :
  let df := [mk_sample "I0001" (Some 10%Z) (Some 20%Z) None (Some "Sweden")
               "R" "H"] in
  option_map (map CombinedBins) (create_bins 1000 df) = Some [Some "Sweden (nanBP)"]
  /\ engine [] [] [] [] [] 1000 df
     = Some ([mk_bin_row "Sweden (nanBP)"
                [("R_y_sum", Some 1%Z); ("y_haplos_sum", Some 1%Z);
                 ("H_mt_sum", Some 1%Z); ("mt_haplos_sum", Some 1%Z)]],
             [mk_site_row 10 20 "Sweden (nanBP)" (Some "I0001")
                [("R_y_sum", 1%Z); ("y_haplos_sum", 1%Z);
                 ("H_mt_sum", 1%Z); ("mt_haplos_sum", 1%Z)]]).
Proof. vm_compute. split; reflexivity. Qed.

(** A record without a political entity, by contrast, has no bin key and
    is in neither table. *)
Example missing_entity_is_excluded :
  engine [] [] [] [] [] 1000
    [mk_sample "I0001" (Some 10%Z) (Some 20%Z) (Some 500%Z) (Some "Sweden") "R" "H";
     mk_sample "I0002" (Some 10%Z) (Some 20%Z) (Some 500%Z) None "I" "U"]
  = Some ([mk_bin_row "Sweden (0-999BP)"
             [("I_y_sum", Some 0%Z); ("R_y_sum", Some 1%Z);
              ("y_haplos_sum", Some 1%Z); ("H_mt_sum", Some 1%Z);
              ("U_mt_sum", Some 0%Z); ("mt_haplos_sum", Some 1%Z)]],
          [mk_site_row 10 20 "Sweden (0-999BP)" (Some "I0001")
             [("I_y_sum", 0%Z); ("R_y_sum", 1%Z); ("y_haplos_sum", 1%Z);
              ("H_mt_sum", 1%Z); ("U_mt_sum", 0%Z); ("mt_haplos_sum", 1%Z)]]).
Proof. vm_compute. reflexivity. Qed.

(** When every cell of 'Political Entity' is missing the column is a float
    column and building the bin keys raises. *)
Example all_entities_missing_raises :
  create_bins 1000
    [mk_sample "I0001" (Some 10%Z) (Some 20%Z) (Some 500%Z) None "R" "H"]
  = None.
Proof. reflexivity. Qed.

(** C5: evaluation at the failing input.  A mitochondrial key "H_sum" is
    an indicator column whose name contains "_sum": it is added into the
    total besides the per-letter sum of 'H', so at both levels the total of
    the track is 2 while its only per-letter count is 1. *)
Theorem C5_sum_named_key :
  engine [] [] [] [] [] 1000
    [mk_sample "I0001" (Some 10%Z) (Some 20%Z) (Some 500%Z) (Some "Sweden")
       "R" "H_sum"]
  = Some ([mk_bin_row "Sweden (0-999BP)"
             [("R_y_sum", Some 1%Z); ("y_haplos_sum", Some 1%Z);
              ("H_sum", Some 1%Z); ("H_mt_sum", Some 1%Z);
              ("mt_haplos_sum", Some 2%Z)]],
          [mk_site_row 10 20 "Sweden (0-999BP)" (Some "I0001")
             [("R_y_sum", 1%Z); ("y_haplos_sum", 1%Z);
              ("H_sum", 1%Z); ("H_mt_sum", 1%Z); ("mt_haplos_sum", 2%Z)]]).
Proof. vm_compute. reflexivity. Qed.

(** C10: evaluation at the failing inputs.  (a) The encoded row of a
    record whose key is "H_sum": the key is retained, and the total of the
    row is 2.  (b) Two records that share identity key, bin and coordinates:
    the merge pairs each with both, so the two records are counted four
    times in each total. *)
Theorem C10_counted_more_than_once :
  (retained "H_sum" = true
   /\ createDummyVariables ["R"] ["H_sum"]
      = Some ([("R_y_sum", [1%Z]); ("y_haplos_sum", [1%Z])],
              [("H_sum", [1%Z]); ("H_mt_sum", [1%Z]); ("mt_haplos_sum", [2%Z])]))
  /\ engine [] [] [] [] [] 1000
       [mk_sample "I0001" (Some 10%Z) (Some 20%Z) (Some 500%Z) (Some "Sweden")
          "R" "H";
        mk_sample "I0001" (Some 10%Z) (Some 20%Z) (Some 600%Z) (Some "Sweden")
          "I" "U"]
     = Some ([mk_bin_row "Sweden (0-999BP)"
                [("I_y_sum", Some 2%Z); ("R_y_sum", Some 2%Z);
                 ("y_haplos_sum", Some 4%Z); ("H_mt_sum", Some 2%Z);
                 ("U_mt_sum", Some 2%Z); ("mt_haplos_sum", Some 4%Z)]],
             [mk_site_row 10 20 "Sweden (0-999BP)" (Some "I0001")
                [("I_y_sum", 2%Z); ("R_y_sum", 2%Z); ("y_haplos_sum", 4%Z);
                 ("H_mt_sum", 2%Z); ("U_mt_sum", 2%Z); ("mt_haplos_sum", 4%Z)]]).
Proof. vm_compute. repeat split; reflexivity. Qed.

(** On the frames that the encoder and the merge produce the totals are
    numeric group sums in which NaN cells count for nothing: the coercion
    leaves every bin-level total as it is. *)
Lemma createTable_totals (combined_df : frame) (nations : list bin_row)
  (sites : list site_row) :
  createTable combined_df = Some (nations, sites) ->
  forall bn nm, In bn nations ->
    nm = "y_haplos_sum" \/ nm = "mt_haplos_sum" ->
    bin_value bn nm
    = Some (column_sum nm (filter (in_bin (n_bins bn)) (f_rows combined_df))).
Proof.
  intros Hct bn nm Hbn Hnm.
  apply createTable_Some in Hct as (Hy & Hmt & -> & Hrows).
  destruct (Hrows bn Hbn) as (vals & Hin & Hval).
  apply bin_level_In in Hin as [_ ->].
  rewrite Hval.
  rewrite (dict_get_tabulate
             (fun nm => column_sum nm (filter (in_bin (n_bins bn)) (f_rows combined_df)))).
  - reflexivity.
  - destruct Hnm; now subst.
Qed.

(* ----------------------------------------------------------------- *)
(** ** [createTable] on a frame that holds text *)






Lemma to_numeric_idem (to_number : string -> option Z) (v : Mixed.obj) :
  Mixed.to_numeric to_number (Mixed.to_numeric to_number v)
  = Mixed.to_numeric to_number v.
Proof.
  destruct v as [z|s|]; simpl; try reflexivity.
  now destruct (to_number s).
Qed.





(* ----------------------------------------------------------------- *)
(** ** The two models of [createTable] agree on numeric frames *)

Lemma key_frame_of_frame_keys (f : frame) :
  site_keys (Mixed.key_frame (Mixed.of_frame f)) = site_keys f
  /\ bin_keys (Mixed.key_frame (Mixed.of_frame f)) = bin_keys f
  /\ agg_columns (Mixed.key_frame (Mixed.of_frame f)) = agg_columns f.
Proof.
  unfold site_keys, bin_keys, agg_columns, Mixed.key_frame, Mixed.of_frame.
  cbn [f_rows f_cols Mixed.x_rows Mixed.x_cols].
  rewrite !map_map. cbn [fst]. rewrite map_id.
  rewrite !flat_map_concat_map, !map_map. repeat split.
Qed.

Lemma get_obj_of_row (r : row) (nm : string) :
  Mixed.get_obj (Mixed.of_row r) nm = Mixed.of_cell (get_cell r nm).
Proof.
  unfold Mixed.get_obj, get_cell, Mixed.of_row. cbn [Mixed.x_vals].
  rewrite dict_get_map_values. now destruct (dict_get (r_vals r) nm).
Qed.

Lemma float_sum_of_cells (l : list cell) :
  Mixed.float_sum (map Mixed.of_cell l) = nansum l.
Proof.
  induction l as [|[z|] l IH]; simpl; [reflexivity | now rewrite IH | exact IH].
Qed.

Lemma float_sum_of_rows (nm : string) (group : list row) :
  Mixed.float_sum (map (fun r => Mixed.get_obj r nm) (map Mixed.of_row group))
  = nansum (map (fun r => get_cell r nm) group).
Proof.
  rewrite map_map, <- float_sum_of_cells, map_map.
  f_equal. apply map_ext. intros r. apply get_obj_of_row.
Qed.

Lemma all_some_total {A B : Type} (g : A -> B) (l : list A) :
  Mixed.all_some (map (fun x => Some (g x)) l) = Some (map g l).
Proof.
  induction l as [|a l IH]; simpl; [reflexivity|]. now rewrite IH.
Qed.

Lemma dtype_of_frame (f : frame) (nm : string) :
  In nm (f_cols f) -> Mixed.dtype_of (Mixed.of_frame f) nm = Mixed.float64.
Proof.
  intros H. unfold Mixed.dtype_of, Mixed.of_frame. cbn [Mixed.x_cols].
  now rewrite (dict_get_tabulate (fun _ => Mixed.float64)).
Qed.

Lemma site_groups_of_frame (f : frame) :
  Mixed.site_groups (Mixed.of_frame f) = map Mixed.of_site_row (site_groups f).
Proof.
  unfold Mixed.site_groups, site_groups.
  destruct (key_frame_of_frame_keys f) as (-> & _ & _).
  rewrite map_map. apply map_ext. intros [[a o] b].
  unfold Mixed.of_site_row. cbn [s_lat s_long s_bins s_id s_vals].
  unfold Mixed.of_frame. cbn [Mixed.x_rows Mixed.x_cols].
  rewrite (filter_map_swap Mixed.of_row).
  f_equal.
  - rewrite map_map. reflexivity.
  - rewrite !map_map. apply map_ext. intros nm. cbn [fst snd].
    unfold Mixed.custom_aggregate, custom_aggregate_numeric.
    now rewrite float_sum_of_rows.
Qed.

Lemma bin_level_of_frame (f : frame) :
  Mixed.bin_level (Mixed.of_frame f)
  = Some (map (fun br => Mixed.mk_xbin (fst br)
                           (map (fun nc => (fst nc, Mixed.Number (snd nc))) (snd br)))
              (bin_level f)).
Proof.
  unfold Mixed.bin_level, bin_level.
  destruct (key_frame_of_frame_keys f) as (_ & -> & ->).
  rewrite map_map. cbn [fst snd].
  rewrite <- (all_some_total
                (fun b => Mixed.mk_xbin b
                   (map (fun nc => (fst nc, Mixed.Number (snd nc)))
                      (map (fun nm => (nm, nansum (map (fun r => get_cell r nm)
                                                     (filter (in_bin b) (f_rows f)))))
                         (agg_columns f))))).
  f_equal. apply map_ext. intros b.
  rewrite map_map. cbn [fst snd].
  erewrite (map_ext_in _ _ (agg_columns f)); cycle 1.
  { intros nm Hnm.
    rewrite (dtype_of_frame f nm) by now apply agg_columns_incl.
    unfold Mixed.group_sum, Mixed.bin_cells, Mixed.of_frame.
    cbn [Mixed.x_rows bind].
    rewrite (filter_map_swap Mixed.of_row), float_sum_of_rows.
    reflexivity. }
  rewrite (all_some_total
             (fun nm => (nm, Mixed.Number
                               (nansum (map (fun r => get_cell r nm)
                                          (filter (in_bin b) (f_rows f))))))).
  reflexivity.
Qed.

(** On a frame of numeric columns [Mixed.createTable] is [createTable]:
    it raises on the same frames and returns the same two tables. *)
Lemma createTable_numeric (to_number : string -> option Z) (f : frame) :
  Mixed.createTable to_number (Mixed.of_frame f)
  = match createTable f with
    | Some (nations, sites) =>
        Some (map Mixed.of_bin_row nations, map Mixed.of_site_row sites)
    | None => None
    end.
Proof.
  unfold Mixed.createTable, createTable, site_level.
  destruct (key_frame_of_frame_keys f) as (-> & _ & ->).
  destruct (site_keys f) as [|k0 ks]; [reflexivity|]. cbn [bind].
  rewrite bin_level_of_frame. cbn [bind].
  unfold Mixed.coerce_column, coerce_column.
  destruct (existsb (String.eqb "y_haplos_sum") (agg_columns f)); [|reflexivity].
  cbn [bind].
  destruct (existsb (String.eqb "mt_haplos_sum") (agg_columns f)); [|reflexivity].
  cbn [bind].
  rewrite site_groups_of_frame. f_equal. f_equal.
  rewrite !map_map. apply map_ext. intros [b vals].
  unfold Mixed.of_bin_row. cbn [fst snd n_bins n_vals Mixed.xn_bins Mixed.xn_vals].
  f_equal. rewrite !map_map. apply map_ext. intros [nm z]. cbn [fst snd].
  destruct (String.eqb nm "y_haplos_sum"); cbn [fst snd];
    destruct (String.eqb nm "mt_haplos_sum"); reflexivity.
Qed.

(* ----------------------------------------------------------------- *)
(** ** The total invariant through the aggregation *)

Lemma sum_map_add {A : Type} (f g : A -> Z) (l : list A) :
  fold_right Z.add 0%Z (map (fun x => (f x + g x)%Z) l)
  = (fold_right Z.add 0%Z (map f l) + fold_right Z.add 0%Z (map g l))%Z.
Proof. induction l as [|a l IH]; simpl; [reflexivity | rewrite IH; lia]. Qed.

Lemma column_sum_linear (total : string) (parts : list string) (rows : list row) :
  (forall r, In r rows ->
     nz (get_cell r total)
     = fold_right Z.add 0%Z (map (fun nm => nz (get_cell r nm)) parts)) ->
  column_sum total rows
  = fold_right Z.add 0%Z (map (fun nm => column_sum nm rows) parts).
Proof.
  induction rows as [|r rows IH]; intros H.
  - unfold column_sum. simpl. clear H.
    induction parts as [|a l IHp]; simpl; [reflexivity | now rewrite <- IHp].
  - rewrite column_sum_cons.
    rewrite IH by (intros r' Hr'; apply H; simpl; auto).
    rewrite (H r) by (simpl; auto).
    rewrite <- sum_map_add. f_equal. apply map_ext. intros nm.
    now rewrite column_sum_cons.
Qed.

Lemma site_level_In (combined_df : frame) (s : site_row) :
  In s (site_groups combined_df) ->
  exists k, In k (site_keys combined_df)
    /\ forall nm, In nm (f_cols combined_df) ->
         site_value s nm = column_sum nm (filter (in_site k) (f_rows combined_df)).
Proof.
  unfold site_groups. intros H.
  apply in_map_iff in H as ([[a o] b] & <- & Hk).
  exists (a, o, b). split; [exact Hk|]. intros nm Hnm.
  unfold site_value. cbn [s_vals].
  now rewrite (dict_get_tabulate
                 (fun nm => custom_aggregate_numeric
                    (map (fun r => get_cell r nm)
                         (filter (in_site (a, o, b)) (f_rows combined_df))))).
Qed.

(** If in every record the total of a track is the sum of its per-letter
    counts (the columns [parts]), the same holds in every row of the
    bin-level table and of the site-level table. *)
Lemma total_invariant_aggregated (combined_df : frame) (total : string)
  (parts : list string) (nations : list bin_row) (sites : list site_row) :
  createTable combined_df = Some (nations, sites) ->
  In total (agg_columns combined_df) ->
  (forall nm, In nm parts -> In nm (agg_columns combined_df)) ->
  (forall r, In r (f_rows combined_df) ->
     nz (get_cell r total)
     = fold_right Z.add 0%Z (map (fun nm => nz (get_cell r nm)) parts)) ->
  (forall bn, In bn nations ->
     nz (bin_value bn total)
     = fold_right Z.add 0%Z (map (fun nm => nz (bin_value bn nm)) parts))
  /\ (forall s, In s sites ->
        site_value s total
        = fold_right Z.add 0%Z (map (fun nm => site_value s nm) parts)).
Proof.
  intros Hct Htot Hparts Hrows.
  apply createTable_Some in Hct as (_ & _ & -> & Hbins).
  split.
  - intros bn Hbn. destruct (Hbins bn Hbn) as (vals & Hin & Hval).
    apply bin_level_In in Hin as [_ ->].
    set (group := filter (in_bin (n_bins bn)) (f_rows combined_df)) in *.
    assert (Hget : forall nm, In nm (agg_columns combined_df) ->
                              nz (bin_value bn nm) = column_sum nm group).
    { intros nm Hnm. rewrite Hval.
      now rewrite (dict_get_tabulate (fun nm => column_sum nm group)). }
    rewrite (Hget total Htot), (column_sum_linear total parts).
    + f_equal. apply map_ext_in. intros nm Hnm. symmetry. auto.
    + intros r Hr. apply Hrows. unfold group in Hr.
      apply filter_In in Hr. tauto.
  - intros s Hs. destruct (site_level_In _ _ Hs) as (k & _ & Hval).
    rewrite Hval by now apply agg_columns_incl.
    rewrite (column_sum_linear total parts).
    + f_equal. apply map_ext_in. intros nm Hnm. symmetry.
      apply Hval, agg_columns_incl. auto.
    + intros r Hr. apply Hrows. apply filter_In in Hr. tauto.
Qed.

(* ----------------------------------------------------------------- *)
(** ** The merge copies cells *)

Lemma suffixed_unshared (other : list string) (suffix nm : string) :
  ~ In nm other -> suffixed other suffix nm = nm.
Proof.
  intros H. unfold suffixed.
  destruct (existsb (String.eqb nm) other) eqn:E; [|reflexivity].
  apply existsb_eqb_In in E. contradiction.
Qed.

Lemma rename_unshared (other : list string) (suffix : string)
  (vals : list (string * cell)) :
  (forall nm, In nm (map fst vals) -> ~ In nm other) ->
  rename other suffix vals = vals.
Proof.
  intros H. unfold rename. rewrite <- (map_id vals) at 2.
  apply map_ext_in. intros [nm c] Hin. cbn [fst snd].
  rewrite suffixed_unshared; [reflexivity|].
  apply H. now apply (in_map fst) in Hin.
Qed.

Lemma map_suffixed_unshared (other names : list string) (suffix : string) :
  (forall nm, In nm names -> ~ In nm other) ->
  map (suffixed other suffix) names = names.
Proof.
  intros H. rewrite <- (map_id names) at 2. apply map_ext_in.
  intros nm Hnm. apply suffixed_unshared. auto.
Qed.

Lemma dict_get_None {V : Type} (d : list (string * V)) (k : string) :
  ~ In k (map fst d) -> dict_get d k = None.
Proof.
  induction d as [|[k0 v0] r IH]; simpl; [reflexivity|].
  intros H. destruct (String.eqb_spec k0 k); [tauto | apply IH; tauto].
Qed.

Lemma dict_get_Some {V : Type} (d : list (string * V)) (k : string) :
  In k (map fst d) -> exists v, dict_get d k = Some v.
Proof.
  induction d as [|[k0 v0] r IH]; simpl; [tauto|].
  intros H. destruct (String.eqb_spec k0 k); [eauto|].
  apply IH. destruct H; [contradiction | assumption].
Qed.

Lemma get_cell_app_left (id : string) (b : option string) (a o : option Z)
  (v1 v2 : list (string * cell)) (nm : string) :
  In nm (map fst v1) ->
  get_cell (mk_row id b a o (v1 ++ v2)) nm = get_cell (mk_row id b a o v1) nm.
Proof.
  intros H. unfold get_cell. cbn [r_vals]. rewrite dict_get_app.
  destruct (dict_get_Some v1 nm H) as (v & ->). reflexivity.
Qed.

Lemma get_cell_app_right (id : string) (b : option string) (a o : option Z)
  (v1 v2 : list (string * cell)) (nm : string) :
  ~ In nm (map fst v1) ->
  get_cell (mk_row id b a o (v1 ++ v2)) nm = get_cell (mk_row id b a o v2) nm.
Proof.
  intros H. unfold get_cell. cbn [r_vals].
  now rewrite dict_get_app, (dict_get_None v1 nm H).
Qed.

Lemma get_cell_missing (id : string) (b : option string) (a o : option Z)
  (names : list string) (nm : string) :
  get_cell (mk_row id b a o (missing names)) nm = None.
Proof.
  unfold get_cell, missing. cbn [r_vals].
  induction names as [|x l IH]; simpl; [reflexivity|].
  now destruct (String.eqb x nm).
Qed.

Lemma missing_names (names : list string) : map fst (missing names) = names.
Proof. unfold missing. rewrite map_map. apply map_id. Qed.

(** When the two frames share no column name, the cells a merged row has
    in the columns of one side are those of a row of that side, or all
    missing. *)
Lemma merge_outer_cells (left right : frame) :
  (forall nm, In nm (f_cols left) -> ~ In nm (f_cols right)) ->
  well_formed left -> well_formed right ->
  forall r, In r (f_rows (merge_outer left right)) ->
    ((exists l, In l (f_rows left)
                /\ forall nm, In nm (f_cols left) -> get_cell r nm = get_cell l nm)
     \/ (forall nm, In nm (f_cols left) -> get_cell r nm = None))
    /\
    ((exists r', In r' (f_rows right)
                 /\ forall nm, In nm (f_cols right) -> get_cell r nm = get_cell r' nm)
     \/ (forall nm, In nm (f_cols right) -> get_cell r nm = None)).
Proof.
  intros Hdisj Hwl Hwr r Hr.
  assert (Hdisj' : forall nm, In nm (f_cols right) -> ~ In nm (f_cols left)).
  { intros nm H1 H2. exact (Hdisj nm H2 H1). }
  assert (Hl : forall l, In l (f_rows left) ->
                         rename (f_cols right) "_x" (r_vals l) = r_vals l).
  { intros l Hin. apply rename_unshared. rewrite (Hwl l Hin). exact Hdisj. }
  assert (Hrr : forall r', In r' (f_rows right) ->
                           rename (f_cols left) "_y" (r_vals r') = r_vals r').
  { intros r' Hin. apply rename_unshared. rewrite (Hwr r' Hin). exact Hdisj'. }
  unfold merge_outer in Hr. cbn [f_rows] in Hr.
  rewrite (map_suffixed_unshared _ _ "_x" Hdisj) in Hr.
  rewrite (map_suffixed_unshared _ _ "_y" Hdisj') in Hr.
  apply in_app_or in Hr as [Hr|Hr].
  - apply in_flat_map in Hr as (l & Hin & Hr).
    rewrite (Hl l Hin) in Hr.
    assert (Hleft : forall X nm, In nm (f_cols left) ->
              get_cell (mk_row (r_id l) (r_bins l) (r_lat l) (r_long l)
                          (r_vals l ++ X)) nm = get_cell l nm).
    { intros X nm Hnm. rewrite get_cell_app_left by now rewrite (Hwl l Hin).
      reflexivity. }
    assert (Hright : forall X nm, In nm (f_cols right) ->
              get_cell (mk_row (r_id l) (r_bins l) (r_lat l) (r_long l)
                          (r_vals l ++ X)) nm
              = get_cell (mk_row (r_id l) (r_bins l) (r_lat l) (r_long l) X) nm).
    { intros X nm Hnm. apply get_cell_app_right. rewrite (Hwl l Hin). auto. }
    destruct (filter (key_eqb l) (f_rows right)) as [|p ps] eqn:Ef.
    + destruct Hr as [<-|[]]. split.
      * left. exists l. split; [exact Hin | intros nm Hnm; apply Hleft, Hnm].
      * right. intros nm Hnm. rewrite Hright by exact Hnm.
        apply get_cell_missing.
    + apply in_map_iff in Hr as (r' & <- & Hr').
      assert (Hin' : In r' (f_rows right)).
      { rewrite <- Ef in Hr'. apply filter_In in Hr'. tauto. }
      rewrite (Hrr r' Hin'). split.
      * left. exists l. split; [exact Hin | intros nm Hnm; apply Hleft, Hnm].
      * left. exists r'. split; [exact Hin'|]. intros nm Hnm.
        rewrite Hright by exact Hnm. reflexivity.
  - apply in_flat_map in Hr as (r' & Hin' & Hr).
    destruct (existsb (fun l => key_eqb l r') (f_rows left)); [contradiction|].
    destruct Hr as [<-|[]]. rewrite (Hrr r' Hin'). split.
    + right. intros nm Hnm.
      rewrite get_cell_app_left by now rewrite missing_names.
      apply get_cell_missing.
    + left. exists r'. split; [exact Hin'|]. intros nm Hnm.
      rewrite get_cell_app_right by (rewrite missing_names; auto).
      reflexivity.
Qed.

(* ----------------------------------------------------------------- *)
(** ** The total invariant from the encoder to the two tables *)

Lemma y_rounds_length (basal snp locus : pydict) (n : nat) (data : list string) :
  List.length (y_rounds basal snp locus n data) = List.length data.
Proof.
  induction n as [|n IH]; [reflexivity|].
  unfold y_rounds in *. simpl Nat.iter. now rewrite y_for_map, length_map.
Qed.

Lemma y_column_length (basal snp locus : pydict) (raw : list string) :
  List.length (y_column (findYBasalHaplogroups basal snp locus raw))
  = List.length raw.
Proof.
  destruct (findY_spec basal snp locus raw) as (_ & H2 & _ & _ & H5).
  rewrite H5.
  destruct (y_loop (findYBasalHaplogroups basal snp locus raw) =? 0);
    [reflexivity|].
  now rewrite H2, y_rounds_length, length_map.
Qed.

Lemma encode_kept_names (suffix total : string) (keys : list string) :
  PyStr.contains "_sum" suffix = true ->
  (forall l, String l suffix <> total) ->
  sum_free keys ->
  map fst (encode_kept suffix total keys (filter retained (map fst (get_dummies keys))))
  = letter_names suffix keys ++ [total].
Proof.
  intros Hsuf Htot Hfree.
  destruct (kept_of_keys keys) as (_ & _ & Hk).
  rewrite encode_kept_shape; try assumption.
  - rewrite map_app. unfold letter_columns, letter_names.
    now rewrite map_map.
  - intros nm H. now apply Hk.
  - intros nm H. apply Hfree. now apply Hk.
Qed.

Lemma concat_axis1_well_formed (df : list binned) (d : dummies) :
  well_formed (concat_axis1 df d).
Proof.
  intros r Hr. unfold concat_axis1 in *. cbn [f_rows f_cols] in *.
  apply in_map_iff in Hr as ([i b] & <- & _). cbn [r_vals].
  now rewrite map_map.
Qed.

Lemma concat_axis1_cells (df : list binned) (d : dummies) (r : row) :
  In r (f_rows (concat_axis1 df d)) ->
  exists i, i < List.length df
    /\ forall nm, nz (get_cell r nm) = nth i (column_of d nm) 0%Z.
Proof.
  unfold concat_axis1. cbn [f_rows]. intros Hr.
  apply in_map_iff in Hr as ([i b] & <- & Hin).
  exists i. split.
  - apply in_combine_l, in_seq in Hin. lia.
  - intros nm. unfold get_cell, column_of. cbn [r_vals fst].
    rewrite (dict_get_map_values (fun c => Some (nth i c 0%Z))).
    unfold dummies, column in *.
    destruct (dict_get d nm); [reflexivity | now destruct i].
Qed.

(** The rows the encoder appends satisfy the total invariant when no key
    contains "_sum". *)
Lemma encoded_rows_total (suffix total : string) (keys : list string)
  (df : list binned) (r : row) :
  PyStr.contains "_sum" suffix = true ->
  (forall l, String l suffix <> total) ->
  sum_free keys ->
  List.length df = List.length keys ->
  In r (f_rows (concat_axis1 df
                  (encode_kept suffix total keys
                     (filter retained (map fst (get_dummies keys)))))) ->
  row_total_is_sum total (letter_names suffix keys) r.
Proof.
  intros Hsuf Htot Hfree Hlen Hr.
  destruct (concat_axis1_cells _ _ _ Hr) as (i & Hi & Hcell).
  destruct (nth_error keys i) as [k|] eqn:Ek;
    [|apply nth_error_None in Ek; lia].
  destruct (encoder_row suffix total keys i k Hsuf Htot Hfree Ek) as (_ & _ & Hsum).
  unfold row_total_is_sum, letter_names.
  rewrite Hcell, Hsum, map_map. f_equal. apply map_ext. intros letter.
  now rewrite Hcell.
Qed.

Lemma all_missing_total (total : string) (parts : list string) (r : row) :
  get_cell r total = None ->
  (forall nm, In nm parts -> get_cell r nm = None) ->
  row_total_is_sum total parts r.
Proof.
  intros Ht Hp. unfold row_total_is_sum. rewrite Ht. simpl.
  induction parts as [|p ps IH]; simpl; [reflexivity|].
  rewrite Hp by (simpl; auto). rewrite <- IH; [reflexivity|].
  intros nm H. apply Hp. simpl. auto.
Qed.

Lemma row_total_is_sum_ext (total : string) (parts : list string) (r l : row) :
  get_cell r total = get_cell l total ->
  (forall nm, In nm parts -> get_cell r nm = get_cell l nm) ->
  row_total_is_sum total parts l -> row_total_is_sum total parts r.
Proof.
  unfold row_total_is_sum. intros Ht Hp Hl. rewrite Ht, Hl.
  f_equal. apply map_ext_in. intros nm Hnm. now rewrite Hp.
Qed.

Lemma track_names_disjoint (ykeys mtkeys : list string) (nm : string) :
  In nm (letter_names "_y_sum" ykeys ++ ["y_haplos_sum"]) ->
  ~ In nm (letter_names "_mt_sum" mtkeys ++ ["mt_haplos_sum"]).
Proof.
  unfold letter_names. intros H1 H2.
  apply in_app_or in H1 as [H1|[<-|[]]]; apply in_app_or in H2 as [H2|[H2|[]]];
    try (apply in_map_iff in H1 as (l1 & <- & _));
    try (apply in_map_iff in H2 as (l2 & H2 & _));
    discriminate.
Qed.

Lemma sum_names_aggregated (cols : list string) (f : frame) (nm : string) :
  f_cols f = cols -> In nm cols -> PyStr.endswith nm "_sum" = true ->
  In nm (agg_columns f).
Proof.
  intros <- Hin He. unfold agg_columns. apply filter_In.
  split; [exact Hin | now rewrite He].
Qed.

Lemma letter_names_end (suffix : string) (keys : list string) (nm : string) :
  suffix = "_y_sum" \/ suffix = "_mt_sum" ->
  In nm (letter_names suffix keys) -> PyStr.endswith nm "_sum" = true.
Proof.
  unfold letter_names. intros Hs H. apply in_map_iff in H as (l & <- & _).
  destruct Hs as [-> | ->]; reflexivity.
Qed.

(** Whenever no key handed to the encoder contains "_sum", every row of
    both tables has, for each track, a total equal to the sum of its
    per-letter counts. *)
Lemma engine_total_invariant
  (mt_basal mutant y_basal y_snp y_locus : pydict) (bin_choice : Z)
  (df : list sample) (nations : list bin_row) (sites : list site_row) :
  let ykeys := y_column (findYBasalHaplogroups y_basal y_snp y_locus
                           (map y_haplogroup df)) in
  let mtkeys := mt_published (findMTBasalHaplogroups mt_basal mutant
                                (map mt_haplogroup df)) in
  engine mt_basal mutant y_basal y_snp y_locus bin_choice df
    = Some (nations, sites) ->
  sum_free ykeys -> sum_free mtkeys ->
  (forall bn, In bn nations ->
     nz (bin_value bn "y_haplos_sum")
       = fold_right Z.add 0%Z
           (map (fun nm => nz (bin_value bn nm)) (letter_names "_y_sum" ykeys))
     /\ nz (bin_value bn "mt_haplos_sum")
       = fold_right Z.add 0%Z
           (map (fun nm => nz (bin_value bn nm)) (letter_names "_mt_sum" mtkeys)))
  /\ (forall s, In s sites ->
        site_value s "y_haplos_sum"
          = fold_right Z.add 0%Z
              (map (fun nm => site_value s nm) (letter_names "_y_sum" ykeys))
        /\ site_value s "mt_haplos_sum"
          = fold_right Z.add 0%Z
              (map (fun nm => site_value s nm) (letter_names "_mt_sum" mtkeys))).
Proof.
  intros ykeys mtkeys Heng Hyfree Hmtfree.
  unfold engine, combined in Heng. fold ykeys mtkeys in Heng.
  destruct (create_bins bin_choice df) as [binned_df|] eqn:Eb; [|discriminate].
  cbn [bind] in Heng.
  unfold createDummyVariables in Heng.
  destruct (cols_to_keep (map fst (get_dummies ykeys))) as [ykept|] eqn:Ey;
    [|discriminate].
  destruct (cols_to_keep (map fst (get_dummies mtkeys))) as [mtkept|] eqn:Em;
    [|discriminate].
  cbn [bind fst snd] in Heng.
  apply cols_to_keep_Some in Ey as [_ ->], Em as [_ ->].
  apply create_bins_key in Eb as [Hlen _].
  assert (Hly : List.length binned_df = List.length ykeys).
  { unfold ykeys. now rewrite y_column_length, length_map. }
  assert (Hlm : List.length binned_df = List.length mtkeys).
  { unfold mtkeys. rewrite findMT_as_findY. cbn [mt_published].
    now rewrite length_map. }
  set (yenc := encode_kept "_y_sum" "y_haplos_sum" ykeys _) in *.
  set (mtenc := encode_kept "_mt_sum" "mt_haplos_sum" mtkeys _) in *.
  set (left := concat_axis1 binned_df yenc) in *.
  set (right := concat_axis1 binned_df mtenc) in *.
  assert (Hyn : f_cols left = letter_names "_y_sum" ykeys ++ ["y_haplos_sum"]).
  { unfold left, concat_axis1. cbn [f_cols]. unfold yenc.
    apply encode_kept_names; [reflexivity | discriminate | assumption]. }
  assert (Hmn : f_cols right = letter_names "_mt_sum" mtkeys ++ ["mt_haplos_sum"]).
  { unfold right, concat_axis1. cbn [f_cols]. unfold mtenc.
    apply encode_kept_names; [reflexivity | discriminate | assumption]. }
  assert (Hdisj : forall nm, In nm (f_cols left) -> ~ In nm (f_cols right)).
  { intros nm. rewrite Hyn, Hmn. apply track_names_disjoint. }
  assert (Hcols : f_cols (merge_outer left right) = f_cols left ++ f_cols right).
  { unfold merge_outer. cbn [f_cols].
    rewrite !map_suffixed_unshared; [reflexivity | | exact Hdisj].
    intros nm H1 H2. exact (Hdisj nm H2 H1). }
  assert (Hrows : forall r, In r (f_rows (merge_outer left right)) ->
            row_total_is_sum "y_haplos_sum" (letter_names "_y_sum" ykeys) r
            /\ row_total_is_sum "mt_haplos_sum" (letter_names "_mt_sum" mtkeys) r).
  { intros r Hr.
    destruct (merge_outer_cells left right Hdisj
                (concat_axis1_well_formed _ _) (concat_axis1_well_formed _ _) r Hr)
      as [HL HR].
    split.
    - assert (Ht : In "y_haplos_sum" (f_cols left))
        by (rewrite Hyn; apply in_or_app; simpl; auto).
      assert (Hp : forall nm, In nm (letter_names "_y_sum" ykeys) ->
                              In nm (f_cols left))
        by (intros nm H; rewrite Hyn; apply in_or_app; auto).
      destruct HL as [(l & Hl & Hcell) | Hnone].
      + apply (row_total_is_sum_ext _ _ r l); auto.
        apply (encoded_rows_total "_y_sum" "y_haplos_sum" ykeys binned_df l);
          [reflexivity | discriminate | assumption | assumption | exact Hl].
      + apply all_missing_total; auto.
    - assert (Ht : In "mt_haplos_sum" (f_cols right))
        by (rewrite Hmn; apply in_or_app; simpl; auto).
      assert (Hp : forall nm, In nm (letter_names "_mt_sum" mtkeys) ->
                              In nm (f_cols right))
        by (intros nm H; rewrite Hmn; apply in_or_app; auto).
      destruct HR as [(l & Hl & Hcell) | Hnone].
      + apply (row_total_is_sum_ext _ _ r l); auto.
        apply (encoded_rows_total "_mt_sum" "mt_haplos_sum" mtkeys binned_df l);
          [reflexivity | discriminate | assumption | assumption | exact Hl].
      + apply all_missing_total; auto. }
  assert (Hagg : forall nm,
            In nm (f_cols left ++ f_cols right) ->
            PyStr.endswith nm "_sum" = true ->
            In nm (agg_columns (merge_outer left right))).
  { intros nm. now apply sum_names_aggregated. }
  destruct (total_invariant_aggregated _ "y_haplos_sum"
              (letter_names "_y_sum" ykeys) nations sites Heng) as [Yb Ys].
  { apply Hagg; [rewrite Hyn; apply in_or_app; left; apply in_or_app; simpl; auto
                | reflexivity]. }
  { intros nm H. apply Hagg.
    - rewrite Hyn. apply in_or_app. left. apply in_or_app. now left.
    - apply (letter_names_end "_y_sum" ykeys); [now left | exact H]. }
  { intros r Hr. now apply Hrows. }
  destruct (total_invariant_aggregated _ "mt_haplos_sum"
              (letter_names "_mt_sum" mtkeys) nations sites Heng) as [Mb Ms].
  { apply Hagg; [rewrite Hmn; apply in_or_app; right; apply in_or_app; simpl; auto
                | reflexivity]. }
  { intros nm H. apply Hagg.
    - rewrite Hmn. apply in_or_app. right. apply in_or_app. now left.
    - apply (letter_names_end "_mt_sum" mtkeys); [now right | exact H]. }
  { intros r Hr. now apply Hrows. }
  split; [intros bn Hbn | intros s Hs]; split; auto.
Qed.
